(** * parseo_excel.py: spreadsheet register specification to SystemRDL

    A shallow embedding of [src/Paso 2-4/parseo_excel.py] and the
    properties of its three-level emitter (blocks, registers, fields).

    Conventions of the embedding:
    - a Python [str] is a [string]; the characters considered are the
      ASCII ones (code below 128), on which [lower], [strip] and
      [replace] are modelled exactly;
    - a spreadsheet cell is dynamically typed: [NaN] (empty), text, or an
      integer; floating-point cells are outside the model;
    - a row is a pandas Series: an association list from column label to
      cell; a sheet is a DataFrame: its column labels (texts) and its
      rows; reading a workbook and opening the output file are given by
      an environment [Env];
    - the [groups] dictionary of a pandas GroupBy is a [gmap];
    - printing, writing to the output file and raising are the effects of
      a state-and-exception monad [Py]. *)

From Stdlib Require Import ZArith Lia Ascii String.
From stdpp Require Import gmap strings list pretty sorting.

Local Open Scope string_scope.
Local Open Scope list_scope.
Local Open Scope Z_scope.

(** ** Python string primitives *)

Module PyStr.

(** Line feed, double quote and single quote, for building the lines of
    the output. *)
Definition nl : string := String "010"%char "".
Definition dq : string := String "034"%char "".
Definition sq : string := String "039"%char "".

(** [str.isspace] on one ASCII character: tab, line feed, vertical tab,
    form feed, carriage return, the four separators 28..31 and space. *)
Definition isspace (c : ascii) : bool :=
  match c with
  | "009" | "010" | "011" | "012" | "013"
  | "028" | "029" | "030" | "031" | " " => true
  | _ => false
  end%char.

Fixpoint lstrip (s : string) : string :=
  match s with
  | String c s' => if isspace c then lstrip s' else s
  | "" => ""
  end.

(** [rstrip] drops the trailing run of whitespace. *)
Fixpoint rstrip (s : string) : string :=
  match s with
  | "" => ""
  | String c s' =>
      match rstrip s' with
      | "" => if isspace c then "" else String c ""
      | t => String c t
      end
  end.

(** [s.strip()] *)
Definition strip (s : string) : string := rstrip (lstrip s).

Fixpoint map_chars (f : ascii → ascii) (s : string) : string :=
  match s with
  | "" => ""
  | String c s' => String (f c) (map_chars f s')
  end.

(** [s.replace(old, new)] for one-character [old] and [new]. *)
Definition replace (old new : ascii) (s : string) : string :=
  map_chars (λ c, if decide (c = old) then new else c) s.

Definition is_upper (c : ascii) : bool :=
  let n := nat_of_ascii c in
  (Nat.leb 65 n && Nat.leb n 90)%bool.

Definition lower_char (c : ascii) : ascii :=
  if is_upper c then ascii_of_nat (nat_of_ascii c + 32) else c.

Definition upper_char (c : ascii) : ascii :=
  let n := nat_of_ascii c in
  if (Nat.leb 97 n && Nat.leb n 122)%bool
  then ascii_of_nat (n - 32) else c.

(** [s.lower()] *)
Definition lower (s : string) : string := map_chars lower_char s.

(** [s * n] *)
Fixpoint repeat (s : string) (n : nat) : string :=
  match n with
  | O => ""
  | S n' => s +:+ repeat s n'
  end.

(** [int(s)] for a text [s], base 10: surrounding whitespace is
    ignored, one sign is allowed, and single underscores may separate
    digits.  [None] stands for the ValueError. *)
Fixpoint parse_digits (s : string) (acc : N) (after_digit : bool) : option N :=
  match s with
  | "" => if after_digit then Some acc else None
  | String c s' =>
      match Ascii.is_nat c with
      | Some d => parse_digits s' (10 * acc + N.of_nat d)%N true
      | None =>
          if decide (c = "_"%char) then
            if after_digit then parse_digits s' acc false else None
          else None
      end
  end.

Definition int_of_str (s : string) : option Z :=
  match strip s with
  | String "-" r => (λ n, - Z.of_N n) <$> parse_digits r 0%N false
  | String "+" r => Z.of_N <$> parse_digits r 0%N false
  | t => Z.of_N <$> parse_digits t 0%N false
  end.

(** Binary digits of a positive number, most significant first. *)
Fixpoint bin_pos (p : positive) (acc : string) : string :=
  match p with
  | xH => String "1" acc
  | xO p' => bin_pos p' (String "0" acc)
  | xI p' => bin_pos p' (String "1" acc)
  end.

Definition bin_N (n : N) : string :=
  match n with
  | N0 => "0"
  | Npos p => bin_pos p ""
  end.

(** [format(v, f'0{width}b')]: sign, then zeros up to [width]
    characters in all, then the binary digits.  A negative [width]
    makes the format specification ['0-3b'] invalid: [None] stands for
    the ValueError. *)
Definition format_0b (v width : Z) : option string :=
  if decide (width < 0) then None
  else
    let sign := if decide (v < 0) then "-" else "" in
    let digits := bin_N (Z.abs_N v) in
    let pad := (Z.to_nat width - String.length sign - String.length digits)%nat in
    Some (sign +:+ repeat "0" pad +:+ digits).

End PyStr.

(** ** Cells, rows and sheets *)

(** A spreadsheet cell as pandas hands it to the program. *)
Inductive cell :=
  | NaN
  | Str (s : string)
  | Int (z : Z).

Global Instance cell_eq_dec : EqDecision cell.
Proof. solve_decision. Defined.

Global Instance cell_countable : Countable cell.
Proof.
  refine (inj_countable'
    (λ c, match c with
          | NaN => inl ()
          | Str s => inr (inl s)
          | Int z => inr (inr z)
          end)
    (λ x, match x with
          | inl _ => NaN
          | inr (inl s) => Str s
          | inr (inr z) => Int z
          end) _).
  by intros [].
Defined.

(** [pd.notna(c)] *)
Definition notna (c : cell) : bool :=
  match c with NaN => false | _ => true end.

(** [str(c)] *)
Definition str (c : cell) : string :=
  match c with
  | NaN => "nan"
  | Str s => s
  | Int z => pretty z
  end.

(** A row ([pandas.Series]): column label and value, in column order. *)
Definition Series := list (string * cell).

(** A sheet ([pandas.DataFrame]). *)
Record DataFrame := {
  columns : list string;
  values : list (list cell)
}.

(** [df.iterrows()], without the index labels the program ignores. *)
Definition iterrows (df : DataFrame) : list Series :=
  map (zip (columns df)) (values df).

(** [df.columns = df.columns.str.strip()] *)
Definition strip_columns (df : DataFrame) : DataFrame :=
  {| columns := map PyStr.strip (columns df); values := values df |}.

(** Label lookup in a row; with a repeated label the first one counts. *)
Fixpoint assoc (row : Series) (label : string) : option cell :=
  match row with
  | [] => None
  | (k, v) :: row' => if decide (k = label) then Some v else assoc row' label
  end.

(** ** Effects: standard output, the output file, exceptions *)

(** The exceptions the program can meet.  [OtherError] is any other
    subclass of [Exception]. *)
Inductive exn :=
  | FileNotFoundError (msg : string)
  | KeyError (key : string)
  | ValueError (msg : string)
  | TypeError (msg : string)
  | OtherError (msg : string).

Global Instance exn_eq_dec : EqDecision exn.
Proof. solve_decision. Defined.

(** [str(e)]; a KeyError shows the [repr] of its key. *)
Definition exn_str (e : exn) : string :=
  match e with
  | KeyError key => PyStr.sq +:+ key +:+ PyStr.sq
  | FileNotFoundError msg | ValueError msg | TypeError msg | OtherError msg => msg
  end.

(** What a run can change.  [stdout] holds one entry per [print] call.
    [written] is [None] while the program has not opened its output file
    and [Some ws] once it has, [ws] being the arguments of [f.write] in
    order (opening with mode ['w'] truncates). *)
Record world := {
  stdout : list string;
  written : option (list string)
}.

(** A process that has printed [out] and opened no file. *)
Definition fresh (out : list string) : world :=
  {| stdout := out; written := None |}.


Definition Py (A : Type) : Type := world → world * (exn + A).

Global Instance Py_ret : MRet Py := λ A x w, (w, inr x).

Global Instance Py_bind : MBind Py := λ A B f m w,
  match m w with
  | (w', inl e) => (w', inl e)
  | (w', inr x) => f x w'
  end.

Definition raise {A} (e : exn) : Py A := λ w, (w, inl e).

(** [print(s)] *)
Definition print (s : string) : Py () := λ w,
  ({| stdout := stdout w ++ [s]; written := written w |}, inr ()).

(** [f.write(s)] *)
Definition write (s : string) : Py () := λ w,
  ({| stdout := stdout w; written := (λ ws, ws ++ [s]) <$> written w |}, inr ()).

(** [try: body except Exception as e: handler(e)] *)
Definition try_except {A} (body : Py A) (handler : exn → Py A) : Py A := λ w,
  match body w with
  | (w', inl e) => handler e w'
  | (w', inr x) => (w', inr x)
  end.

(** [for x in l: body(x)] *)
Fixpoint for_each {A} (l : list A) (body : A → Py ()) : Py () :=
  match l with
  | [] => mret ()
  | x :: l' => body x;; for_each l' body
  end.

(** [[f(x) for x in l]] *)
Fixpoint map_py {A B} (f : A → Py B) (l : list A) : Py (list B) :=
  match l with
  | [] => mret []
  | x :: l' => y ← f x; ys ← map_py f l'; mret (y :: ys)
  end.

(** [row[label]] *)
Definition getitem (row : Series) (label : string) : Py cell :=
  match assoc row label with
  | Some c => mret c
  | None => raise (KeyError label)
  end.

(** [int(c)] *)
Definition int (c : cell) : Py Z :=
  match c with
  | Int z => mret z
  | Str s =>
      match PyStr.int_of_str s with
      | Some z => mret z
      | None =>
          raise (ValueError ("invalid literal for int() with base 10: "
                             +:+ PyStr.sq +:+ s +:+ PyStr.sq))
      end
  | NaN => raise (ValueError "cannot convert float NaN to integer")
  end.

(** [format(v, f'0{width}b')] *)
Definition format_0b (v width : Z) : Py string :=
  match PyStr.format_0b v width with
  | Some s => mret s
  | None => raise (ValueError "Invalid format specifier")
  end.

(** ** pandas: groupby and sort_values *)

Record GroupBy := {
  gb_frame : DataFrame;
  gb_key : string
}.

(** [df.groupby(label)]: the label must be a column. *)
Definition groupby (df : DataFrame) (label : string) : Py GroupBy :=
  if decide (label ∈ columns df)
  then mret {| gb_frame := df; gb_key := label |}
  else raise (KeyError label).

Definition add_to_group (key : cell) (row : Series)
    (m : gmap cell (list Series)) : gmap cell (list Series) :=
  <[key := row :: default [] (m !! key)]> m.

(** [g.groups], each key with the rows [g.get_group(key)] returns, in
    sheet order.  Rows whose key cell is empty belong to no group. *)
Definition groups (g : GroupBy) : gmap cell (list Series) :=
  foldr (λ row m,
           match assoc row (gb_key g) with
           | Some key => if notna key then add_to_group key row m else m
           | None => m
           end)
        ∅ (iterrows (gb_frame g)).

Definition int_keyed (l : list (cell * Series)) : list (Z * Series) :=
  omap (λ kr, match kr.1 with Int z => Some (z, kr.2) | _ => None end) l.

Definition str_keyed (l : list (cell * Series)) : list (string * Series) :=
  omap (λ kr, match kr.1 with Str s => Some (s, kr.2) | _ => None end) l.

Definition nan_keyed (l : list (cell * Series)) : list Series :=
  omap (λ kr, match kr.1 with NaN => Some kr.2 | _ => None end) l.

Definition le_Z_key : relation (Z * Series) := λ a b, a.1 ≤ b.1.
Definition le_str_key : relation (string * Series) := λ a b, String.le a.1 b.1.

Global Instance le_Z_key_dec : RelDecision le_Z_key.
Proof. intros a b. unfold le_Z_key. apply _. Defined.

Global Instance le_str_key_dec : RelDecision le_str_key.
Proof. intros a b. unfold le_str_key. apply _. Defined.

(** [rows.sort_values(label)]: ascending, empty keys last.  Integer keys
    compare as numbers and text keys as strings; comparing a text with a
    number raises TypeError.  pandas leaves the order of rows with equal
    keys to its sorting algorithm; here it is the one [merge_sort] gives,
    and no property below depends on it. *)
Definition sort_values (rows : list Series) (label : string) : Py (list Series) :=
  keyed ← map_py (λ row, key ← getitem row label; mret (key, row)) rows;
  match int_keyed keyed, str_keyed keyed with
  | _ :: _, _ :: _ =>
      raise (TypeError "'<' not supported between instances of 'str' and 'int'")
  | ints, [] => mret ((snd <$> merge_sort le_Z_key ints) ++ nan_keyed keyed)
  | [], strs => mret ((snd <$> merge_sort le_str_key strs) ++ nan_keyed keyed)
  end.

(** ** The program *)

Definition access_map : gmap string (string * option string) :=
  {[ "rw" := ("rw", None);
     "ro" := ("r", None);
     "wo" := ("w", None);
     "w1c" := ("w", Some "woclr") ]}.

Definition access_to_rdl (access_type : string) : string * option string :=
  default ("r", None) (access_map !! PyStr.lower access_type).

Definition sanitize_name (name : cell) : string :=
  PyStr.replace "-" "_" (PyStr.replace " " "_" (PyStr.strip (str name))).

(** The truth value of [onwrite] in [if onwrite:]. *)
Definition truthy (o : option string) : bool :=
  match o with
  | Some (String _ _) => true
  | _ => false
  end.

(** Body of the loop over the fields of a register (lines 139-167). *)
Definition process_field (field : Series) : Py () :=
  c ← getitem field "Field Name";
  let field_name := sanitize_name c in
  c ← getitem field "LSB";
  lsb ← int c;
  c ← getitem field "Width";
  width ← int c;
  let msb := lsb + width - 1 in
  c ← getitem field "Access";
  let access := PyStr.strip (str c) in
  c ← getitem field "Reset Value";
  reset_value ← (if notna c then int c else mret 0);
  c ← getitem field "Description";
  let field_desc :=
    if notna c then PyStr.strip (str c) else field_name +:+ " field" in
  let '(sw_access, onwrite) := access_to_rdl access in
  reset_bin ← format_0b reset_value width;
  print ("    - Campo: " +:+ field_name +:+ "[" +:+ pretty msb +:+ ":"
         +:+ pretty lsb +:+ "] = " +:+ pretty width +:+ "'b" +:+ reset_bin
         +:+ " (" +:+ access +:+ ")");;
  write ("        field {" +:+ PyStr.nl);;
  write ("            name = " +:+ PyStr.dq +:+ field_name +:+ PyStr.dq
         +:+ ";" +:+ PyStr.nl);;
  write ("            desc = " +:+ PyStr.dq +:+ field_desc +:+ PyStr.dq
         +:+ ";" +:+ PyStr.nl);;
  write ("            sw = " +:+ sw_access +:+ ";" +:+ PyStr.nl);;
  write ("            hw = r;" +:+ PyStr.nl);;
  (if truthy onwrite
   then write ("            onwrite = " +:+ default "" onwrite +:+ ";"
               +:+ PyStr.nl)
   else mret ());;
  write ("        } " +:+ field_name +:+ "[" +:+ pretty msb +:+ ":"
         +:+ pretty lsb +:+ "] = " +:+ pretty width +:+ "'b" +:+ reset_bin
         +:+ ";" +:+ PyStr.nl +:+ PyStr.nl).

(** Body of the loop over the registers of a block (lines 108-170).  The
    lookup in [groups] stands for the membership test of line 127 and the
    [get_group] of line 134. *)
Definition process_register (fields_by_register : GroupBy)
    (register : Series) : Py () :=
  c ← getitem register "Register Name";
  let reg_name := sanitize_name c in
  c ← getitem register "Offset";
  let reg_offset := PyStr.strip (str c) in
  c ← getitem register "Description";
  let reg_desc :=
    if notna c then PyStr.strip (str c) else reg_name +:+ " Register" in
  c ← getitem register "Width (bits)";
  reg_width ← (if notna c then int c else mret 32);
  print ("  📝 Procesando registro: " +:+ reg_name +:+ " @ " +:+ reg_offset);;
  write ("    // Registro " +:+ reg_name +:+ PyStr.nl);;
  write ("    reg {" +:+ PyStr.nl);;
  write ("        name = " +:+ PyStr.dq +:+ reg_name +:+ PyStr.dq +:+ ";"
         +:+ PyStr.nl);;
  write ("        desc = " +:+ PyStr.dq +:+ reg_desc +:+ PyStr.dq +:+ ";"
         +:+ PyStr.nl);;
  write ("        regwidth = " +:+ pretty reg_width +:+ ";" +:+ PyStr.nl
         +:+ PyStr.nl);;
  match groups fields_by_register !! Str reg_name with
  | None =>
      print ("    ⚠ Advertencia: No se encontraron campos para el registro "
             +:+ reg_name);;
      write ("        // No se encontraron campos para este registro"
             +:+ PyStr.nl +:+ PyStr.nl);;
      write ("    } " +:+ reg_name +:+ " @ " +:+ reg_offset +:+ ";"
             +:+ PyStr.nl +:+ PyStr.nl)
  | Some register_fields =>
      register_fields ← sort_values register_fields "LSB";
      for_each register_fields process_field;;
      write ("    } " +:+ reg_name +:+ " @ " +:+ reg_offset +:+ ";"
             +:+ PyStr.nl +:+ PyStr.nl)
  end.

(** Body of the loop over the blocks (lines 82-173).  The lookup in
    [groups] stands for the membership test of line 99 and the
    [get_group] of line 106. *)
Definition process_block (registers_by_block fields_by_register : GroupBy)
    (block : Series) : Py () :=
  c ← getitem block "Block Name";
  let block_name := sanitize_name c in
  c ← getitem block "Base Address";
  let base_address := PyStr.strip (str c) in
  c ← getitem block "Description";
  let block_desc :=
    if notna c then PyStr.strip (str c) else block_name +:+ " Block" in
  print (PyStr.nl +:+ "📦 Procesando bloque: " +:+ block_name);;
  write ("addrmap " +:+ block_name +:+ " {" +:+ PyStr.nl);;
  write ("    name = " +:+ PyStr.dq +:+ block_name +:+ PyStr.dq +:+ ";"
         +:+ PyStr.nl);;
  write ("    desc = " +:+ PyStr.dq +:+ block_desc +:+ PyStr.dq +:+ ";"
         +:+ PyStr.nl +:+ PyStr.nl);;
  match groups registers_by_block !! Str block_name with
  | None =>
      print ("  ⚠ Advertencia: No se encontraron registros para el bloque "
             +:+ block_name);;
      write ("    // No se encontraron registros para este bloque"
             +:+ PyStr.nl +:+ PyStr.nl);;
      write ("};" +:+ PyStr.nl +:+ PyStr.nl)
  | Some block_registers =>
      for_each block_registers (process_register fields_by_register);;
      write ("};" +:+ PyStr.nl +:+ PyStr.nl)
  end.

(** What the program does not compute itself: reading a sheet of a
    workbook and opening the output file. *)
Record Env := {
  read_excel : string → string → exn + DataFrame;
  open_w : string → option exn
}.

Section program.

Variable env : Env.

(** [pd.read_excel(excel_file, sheet_name=sheet)] *)
Definition pd_read_excel (excel_file sheet : string) : Py DataFrame :=
  match read_excel env excel_file sheet with
  | inr df => mret df
  | inl e => raise e
  end.

(** [open(output_file, 'w', encoding='utf-8')] *)
Definition open_write (output_file : string) : Py () := λ w,
  match open_w env output_file with
  | Some e => (w, inl e)
  | None => ({| stdout := stdout w; written := Some [] |}, inr ())
  end.

(** The [try] block of [generate_rdl_from_excel] (lines 41-179). *)
Definition generate_body (excel_file output_file : string) : Py () :=
  print ("Leyendo archivo Excel: " +:+ excel_file);;
  df_blocks ← pd_read_excel excel_file "Blocks";
  let df_blocks := strip_columns df_blocks in
  df_registers ← pd_read_excel excel_file "Registers";
  let df_registers := strip_columns df_registers in
  df_fields ← pd_read_excel excel_file "Fields";
  let df_fields := strip_columns df_fields in
  print ("✓ Bloques encontrados: " +:+ pretty (length (values df_blocks)));;
  print ("✓ Registros encontrados: "
         +:+ pretty (length (values df_registers)));;
  print ("✓ Fields encontrados: " +:+ pretty (length (values df_fields)));;
  registers_by_block ← groupby df_registers "Block Name";
  fields_by_register ← groupby df_fields "Register Name";
  open_write output_file;;
  for_each (iterrows df_blocks)
           (process_block registers_by_block fields_by_register);;
  print (PyStr.nl +:+ "✅ Archivo RDL generado exitosamente: "
         +:+ output_file);;
  print (PyStr.nl +:+ "📋 Siguientes pasos:");;
  print ("  1. Compilar: peakrdl regblock " +:+ output_file +:+ " -o output");;
  print ("  2. Generar HTML: peakrdl html " +:+ output_file
         +:+ " -o output_html");;
  print "  3. Abrir: open output_html/index.html".

(** The [except] clauses (lines 181-191); the traceback of the last one
    goes to the standard error stream. *)
Definition generate_handler (excel_file : string) (e : exn) : Py () :=
  match e with
  | FileNotFoundError _ =>
      print ("❌ Error: No se pudo encontrar el archivo " +:+ excel_file);;
      print "   Verifica que el archivo existe y la ruta es correcta"
  | KeyError _ =>
      print ("❌ Error: No se encontró la columna o hoja esperada: "
             +:+ exn_str e);;
      print ("   Verifica que el Excel tenga las hojas 'Blocks', "
             +:+ "'Registers' y 'Fields'");;
      print "   con las columnas correctas"
  | _ =>
      print ("❌ Error al procesar el archivo: " +:+ exn_str e)
  end.

Definition generate_rdl_from_excel (excel_file output_file : string) : Py () :=
  try_except (generate_body excel_file output_file)
             (generate_handler excel_file).




End program.

(** ** Vocabulary of the properties *)

(** [emit w out ws]: the world [w] after printing the lines [out] and
    writing the strings [ws] to the output file. *)
Definition emit (w : world) (out ws : list string) : world :=
  {| stdout := stdout w ++ out; written := (λ l, l ++ ws) <$> written w |}.

(** [appends m out ws r]: from every world, [m] prints [out], writes
    [ws], touches nothing else and ends with [r]. *)
Definition appends {A} (m : Py A) (out ws : list string) (r : exn + A) : Prop :=
  ∀ w, m w = (emit w out ws, r).

(** [m] only appends, and what it appends does not depend on the world. *)
Definition framed {A} (m : Py A) : Prop :=
  ∃ out ws r, appends m out ws r.

(** What [m] prints, writes and returns when it starts with nothing
    printed and the output file open and empty. *)
Definition blank : world := {| stdout := []; written := Some [] |}.

Definition prints_of {A} (m : Py A) : list string := stdout (m blank).1.

Definition writes_of {A} (m : Py A) : list string :=
  default [] (written (m blank).1).

Definition result_of {A} (m : Py A) : exn + A := (m blank).2.

(** [any_case code s]: [s] is [code] up to the case of its letters
    ([code] being in lower case). *)
Fixpoint any_case (code s : string) : Prop :=
  match code, s with
  | "", "" => True
  | String c code', String d s' =>
      (d = c ∨ d = PyStr.upper_char c) ∧ any_case code' s'
  | _, _ => False
  end.


(** The description the specification asks for: the text of the cell
    without surrounding whitespace, or [dflt] when the cell is empty. *)
Definition desc_text (c : cell) (dflt : string) : string :=
  match c with
  | NaN => dflt
  | _ => PyStr.strip (str c)
  end.

(** The integer a cell holds, if it holds one. *)
Definition int_value (c : cell) : option Z :=
  match c with
  | Int z => Some z
  | Str s => PyStr.int_of_str s
  | NaN => None
  end.

(** The integer a cell holds, [dflt] when the cell is empty. *)
Definition int_or (c : cell) (dflt : Z) : option Z :=
  match c with
  | NaN => Some dflt
  | _ => int_value c
  end.

(** The value of a string of binary digits. *)
Fixpoint bin_value_acc (s : string) (acc : N) : option N :=
  match s with
  | "" => Some acc
  | String "0" s' => bin_value_acc s' (2 * acc)%N
  | String "1" s' => bin_value_acc s' (2 * acc + 1)%N
  | String _ _ => None
  end.

Definition bin_value (s : string) : option N := bin_value_acc s 0%N.

(** Whitespace at the ends of a string. *)
Fixpoint all_space (s : string) : bool :=
  match s with
  | "" => true
  | String c s' => PyStr.isspace c && all_space s'
  end.

Definition head_space (s : string) : bool :=
  match s with
  | "" => false
  | String c _ => PyStr.isspace c
  end.

Fixpoint last_space (s : string) : bool :=
  match s with
  | "" => false
  | String c "" => PyStr.isspace c
  | String _ s' => last_space s'
  end.

(** The five lines that open a register in the output file. *)
Definition reg_header_lines (reg_name reg_desc : string) (reg_width : Z)
    : list string :=
  ["    // Registro " +:+ reg_name +:+ PyStr.nl;
   "    reg {" +:+ PyStr.nl;
   "        name = " +:+ PyStr.dq +:+ reg_name +:+ PyStr.dq +:+ ";"
     +:+ PyStr.nl;
   "        desc = " +:+ PyStr.dq +:+ reg_desc +:+ PyStr.dq +:+ ";"
     +:+ PyStr.nl;
   "        regwidth = " +:+ pretty reg_width +:+ ";" +:+ PyStr.nl
     +:+ PyStr.nl].

(** The rows the register loop of a block visits, in order: the group
    the block's identifier selects (lines 99-108), none when the
    identifier is not a key of [groups]. *)
Definition block_registers (registers_by_block : GroupBy)
    (block_name : string) : list Series :=
  default [] (groups registers_by_block !! Str block_name).

(** The rows the field loop of a register visits, in order: the group
    the register's identifier selects, sorted by LSB (lines 127-139). *)
Definition register_fields (fields_by_register : GroupBy)
    (reg_name : string) : exn + list Series :=
  match groups fields_by_register !! Str reg_name with
  | None => inr []
  | Some group => result_of (sort_values group "LSB")
  end.




(** The lines printed while the three sheets are loaded. *)
Definition loading_lines (excel_file : string)
    (df_blocks df_registers df_fields : DataFrame) : list string :=
  ["Leyendo archivo Excel: " +:+ excel_file;
   "✓ Bloques encontrados: " +:+ pretty (length (values df_blocks));
   "✓ Registros encontrados: " +:+ pretty (length (values df_registers));
   "✓ Fields encontrados: " +:+ pretty (length (values df_fields))].

(** The lines printed after the last block. *)
Definition success_lines (output_file : string) : list string :=
  [PyStr.nl +:+ "✅ Archivo RDL generado exitosamente: " +:+ output_file;
   PyStr.nl +:+ "📋 Siguientes pasos:";
   "  1. Compilar: peakrdl regblock " +:+ output_file +:+ " -o output";
   "  2. Generar HTML: peakrdl html " +:+ output_file +:+ " -o output_html";
   "  3. Abrir: open output_html/index.html"].

(** The lines an exception caught by [generate_rdl_from_excel] prints. *)
Definition failure_lines (excel_file : string) (e : exn) : list string :=
  prints_of (generate_handler excel_file e).

(** [has_char a s]: the character [a] occurs in [s]. *)
Fixpoint has_char (a : ascii) (s : string) : bool :=
  match s with
  | "" => false
  | String c s' => bool_decide (c = a) || has_char a s'
  end.

(** What the two [replace] calls of [sanitize_name] do to a character. *)
Definition underscore (c : ascii) : ascii :=
  if bool_decide (c = " "%char ∨ c = "-"%char) then "_"%char else c.

(** The three sheets with their column labels trimmed, as
    [generate_rdl_from_excel] uses them. *)
Definition trimmed (sheet : exn + DataFrame) : exn + DataFrame :=
  match sheet with
  | inr df => inr (strip_columns df)
  | inl e => inl e
  end.

(** ** Sample workbooks *)

(** A workbook that holds the three sheets and an output file that can
    be opened. *)
Definition workbook (blocks registers fields : DataFrame) : Env :=
  {| read_excel := λ _ sheet,
       if decide (sheet = "Blocks") then inr blocks
       else if decide (sheet = "Registers") then inr registers
       else if decide (sheet = "Fields") then inr fields
       else inl (ValueError ("Worksheet named " +:+ PyStr.sq +:+ sheet
                             +:+ PyStr.sq +:+ " not found"));
     open_w := λ _, None |}.

(** No workbook at all. *)
Definition no_workbook : Env :=
  {| read_excel := λ excel_file _,
       inl (FileNotFoundError ("[Errno 2] No such file or directory: "
                               +:+ PyStr.sq +:+ excel_file +:+ PyStr.sq));
     open_w := λ _, None |}.

Definition block_columns : list string :=
  ["Block Name"; "Base Address"; "Size"; "Description"].

Definition register_columns : list string :=
  ["Block Name"; "Register Name"; "Offset"; "Description"; "Width (bits)"].

Definition field_columns : list string :=
  ["Register Name"; "Field Name"; "LSB"; "Width"; "Access"; "Reset Value";
   "Description"].

Definition no_fields : DataFrame :=
  {| columns := field_columns; values := [] |}.

(** One block whose name holds a space, and one register of that block. *)
Definition spaced_blocks : DataFrame :=
  {| columns := block_columns;
     values := [[Str "A B"; Str "0x0"; Int 16; NaN]] |}.

Definition spaced_registers : DataFrame :=
  {| columns := register_columns;
     values := [[Str "A B"; Str "R"; Str "0x0"; NaN; NaN]] |}.

(** One block with one register; two fields start at bit 0. *)
Definition uart_blocks : DataFrame :=
  {| columns := block_columns;
     values := [[Str "UART"; Str "0x1000"; Int 256; NaN]] |}.

Definition uart_registers : DataFrame :=
  {| columns := register_columns;
     values := [[Str "UART"; Str "CTRL"; Str "0x00"; Str " control "; NaN]] |}.


(** The fields of the example of the specification, out of order. *)
Definition uart_fields : DataFrame :=
  {| columns := field_columns;
     values := [[Str "CTRL"; Str "EN"; Int 4; Int 3; Str "w1c"; Int 5; NaN];
                [Str "CTRL"; Str "MODE"; Int 0; Int 2; Str "RW"; NaN;
                 Str "mode"]] |}.

(** The rows of [uart_blocks] and [uart_registers]. *)
Definition uart_block : Series :=
  zip block_columns [Str "UART"; Str "0x1000"; Int 256; NaN].

Definition ctrl_register : Series :=
  zip register_columns
      [Str "UART"; Str "CTRL"; Str "0x00"; Str " control "; NaN].

(** The field of the example of the specification. *)
Definition en_field : Series :=
  zip field_columns
      [Str "CTRL"; Str "EN"; Int 4; Int 3; Str "w1c"; Int 5; NaN].

(** A register whose width cell holds a text that is no number. *)
Definition bad_width_registers : DataFrame :=
  {| columns := register_columns;
     values := [[Str "UART"; Str "CTRL"; Str "0x00"; NaN; Str "abc"]] |}.

Definition bad_width_register : Series :=
  zip register_columns [Str "UART"; Str "CTRL"; Str "0x00"; NaN; Str "abc"].

(** Three blocks; with [bad_width_registers] the second one fails. *)
Definition three_blocks : DataFrame :=
  {| columns := block_columns;
     values := [[Str "GPIO"; Str "0x0"; Int 16; NaN];
                [Str "UART"; Str "0x1000"; Int 256; NaN];
                [Str "SPI"; Str "0x2000"; Int 16; NaN]] |}.

Definition gpio_block : Series :=
  zip block_columns [Str "GPIO"; Str "0x0"; Int 16; NaN].

Definition spi_block : Series :=
  zip block_columns [Str "SPI"; Str "0x2000"; Int 16; NaN].

(** A Blocks sheet without rows. *)
Definition no_blocks : DataFrame :=
  {| columns := block_columns; values := [] |}.

(** A register whose width cell holds the text of a number. *)
Definition status_register : Series :=
  zip register_columns
      [Str "UART"; Str "STAT"; Str "0x04"; Str "status"; Str " 16 "].

(** The register width as the specification words it: an empty cell or
    one that holds no integer gives the line [regwidth = 32;]. *)
Definition width_defaults_to_32 (fields_by_register : GroupBy)
    (register : Series) : Prop :=
  ∀ c, assoc register "Width (bits)" = Some c →
       int_value c = None →
       ("        regwidth = 32;" +:+ PyStr.nl +:+ PyStr.nl)
       ∈ writes_of (process_register fields_by_register register).

(** ** The effect monad *)

Section monad_laws.

Context {A B : Type}.

Lemma emit_nil w : emit w [] [] = w.
Proof.
  destruct w as [out [ws|]]; unfold emit; simpl; by rewrite !app_nil_r.
Qed.

Lemma emit_emit w o1 s1 o2 s2 :
  emit (emit w o1 s1) o2 s2 = emit w (o1 ++ o2) (s1 ++ s2).
Proof.
  destruct w as [out [ws|]]; unfold emit; simpl; by rewrite !app_assoc.
Qed.

Lemma written_emit w out ws :
  written (emit w out ws) = (λ l, l ++ ws) <$> written w.
Proof. done. Qed.

Lemma stdout_emit w out ws : stdout (emit w out ws) = stdout w ++ out.
Proof. done. Qed.

Lemma appends_ret (x : A) : appends (mret x) [] [] (inr x).
Proof. intros w. by rewrite emit_nil. Qed.

Lemma appends_raise (e : exn) : appends (@raise A e) [] [] (inl e).
Proof. intros w. by rewrite emit_nil. Qed.

Lemma appends_print s : appends (print s) [s] [] (inr ()).
Proof.
  intros [out [ws|]]; unfold print, emit; simpl; by rewrite ?app_nil_r.
Qed.

Lemma appends_write s : appends (write s) [] [s] (inr ()).
Proof.
  intros [out [ws|]]; unfold write, emit; simpl; by rewrite ?app_nil_r.
Qed.

Lemma appends_bind (m : Py A) (f : A → Py B) o1 s1 x o2 s2 r :
  appends m o1 s1 (inr x) → appends (f x) o2 s2 r →
  appends (m ≫= f) (o1 ++ o2) (s1 ++ s2) r.
Proof.
  intros Hm Hf w. unfold mbind, Py_bind. by rewrite Hm, Hf, emit_emit.
Qed.

Lemma appends_bind_raise (m : Py A) (f : A → Py B) o s e :
  appends m o s (inl e) → appends (m ≫= f) o s (inl e).
Proof. intros Hm w. unfold mbind, Py_bind. by rewrite Hm. Qed.

Lemma appends_eq (m : Py A) o s r o' s' r' :
  appends m o s r → o = o' → s = s' → r = r' → appends m o' s' r'.
Proof. by intros ? <- <- <-. Qed.

End monad_laws.

(** ** Strings *)

Lemma lower_char_cases d :
  d = PyStr.lower_char d ∨ d = PyStr.upper_char (PyStr.lower_char d).
Proof. destruct d as [[] [] [] [] [] [] [] []]; vm_compute; auto. Qed.

Lemma lower_upper_char c :
  PyStr.lower_char c = c → PyStr.lower_char (PyStr.upper_char c) = c.
Proof. destruct c as [[] [] [] [] [] [] [] []]; vm_compute; congruence. Qed.

Lemma any_case_lower code s :
  PyStr.lower code = code → any_case code s ↔ PyStr.lower s = code.
Proof.
  unfold PyStr.lower.
  revert s. induction code as [|c code IH]; intros [|d s] Hc; simpl;
    try (split; [done | discriminate]); [by split|].
  injection Hc as Hc1 Hc2. rewrite (IH s Hc2). split.
  - intros [Hd <-]. simpl. f_equal.
    destruct Hd as [->| ->]; [done | by apply lower_upper_char].
  - intros [= <- <-]. split; [|done]. apply lower_char_cases.
Qed.

Lemma access_map_lookup k :
  access_map !! k =
    if decide (k = "rw") then Some ("rw", None)
    else if decide (k = "ro") then Some ("r", None)
    else if decide (k = "wo") then Some ("w", None)
    else if decide (k = "w1c") then Some ("w", Some "woclr")
    else None.
Proof.
  unfold access_map.
  repeat (rewrite lookup_insert; case_decide; subst; [done|]).
  repeat (case_decide; [congruence|]).
  rewrite lookup_singleton. repeat case_decide; congruence.
Qed.

Lemma length_app_str (s t : string) :
  String.length (s +:+ t) = (String.length s + String.length t)%nat.
Proof. induction s as [|c s IH]; simpl; [done|]. by rewrite IH. Qed.

Lemma length_repeat_char (c : ascii) n :
  String.length (PyStr.repeat (String c "") n) = n.
Proof.
  induction n as [|n IH]; simpl; [done|]. by rewrite length_app_str, IH.
Qed.

(** ** Binary digits *)

Lemma length_bin_pos p acc :
  String.length (PyStr.bin_pos p acc) = (Pos.size_nat p + String.length acc)%nat.
Proof.
  revert acc. induction p as [p IH|p IH|]; intros acc; simpl; [| |done];
    rewrite IH; simpl; lia.
Qed.

Lemma size_nat_le_iff p (w : nat) :
  (Pos.size_nat p ≤ w)%nat ↔ Z.pos p < 2 ^ Z.of_nat w.
Proof.
  revert w. induction p as [p IH|p IH|]; intros [|w]; simpl Pos.size_nat;
    rewrite ?Nat2Z.inj_succ, ?Z.pow_succ_r, ?Z.pow_0_r by lia;
    try specialize (IH w); lia.
Qed.

Lemma length_bin_N n :
  String.length (PyStr.bin_N n) =
    match n with N0 => 1%nat | Npos p => Pos.size_nat p end.
Proof. destruct n; simpl; [done|]. rewrite length_bin_pos. simpl. lia. Qed.

Lemma bin_value_acc_bin_pos p acc a :
  bin_value_acc (PyStr.bin_pos p acc) a =
  bin_value_acc acc (a * 2 ^ N.of_nat (Pos.size_nat p) + Npos p)%N.
Proof.
  revert acc a. induction p as [p IH|p IH|]; intros acc a; simpl PyStr.bin_pos.
  - rewrite IH. simpl bin_value_acc. f_equal.
    simpl Pos.size_nat. rewrite Nat2N.inj_succ, N.pow_succ_r'. lia.
  - rewrite IH. simpl bin_value_acc. f_equal.
    simpl Pos.size_nat. rewrite Nat2N.inj_succ, N.pow_succ_r'. lia.
  - simpl. f_equal. lia.
Qed.

Lemma bin_value_bin_N n : bin_value (PyStr.bin_N n) = Some n.
Proof.
  destruct n as [|p]; [done|]. unfold bin_value. simpl.
  rewrite bin_value_acc_bin_pos. simpl. f_equal.
Qed.

Lemma bin_value_acc_zeros n s a :
  bin_value_acc (PyStr.repeat "0" n +:+ s) a =
  bin_value_acc s (a * 2 ^ N.of_nat n)%N.
Proof.
  revert a. induction n as [|n IH]; intros a; simpl.
  - f_equal. lia.
  - rewrite IH. f_equal. rewrite Nat2N.inj_succ, N.pow_succ_r'. lia.
Qed.

(** [format] of a value that is not negative: zeros, then the digits. *)
Lemma format_0b_nonneg v width :
  0 ≤ v → 0 ≤ width →
  ∃ s, PyStr.format_0b v width = Some s
     ∧ s = PyStr.repeat "0"
             (Z.to_nat width - String.length (PyStr.bin_N (Z.to_N v)))
           +:+ PyStr.bin_N (Z.to_N v)
     ∧ bin_value s = Some (Z.to_N v)
     ∧ String.length s =
         Nat.max (Z.to_nat width) (String.length (PyStr.bin_N (Z.to_N v))).
Proof.
  intros Hv Hw. unfold PyStr.format_0b.
  case_decide; [lia|]. case_decide; [lia|].
  replace (Z.abs_N v) with (Z.to_N v) by lia.
  eexists. split; [done|]. simpl String.length. rewrite Nat.sub_0_r.
  change ("" +:+ ?x) with x. split; [done|]. split.
  - unfold bin_value. rewrite bin_value_acc_zeros. simpl. apply bin_value_bin_N.
  - rewrite length_app_str, length_repeat_char. lia.
Qed.

(** The digits of [v] fit in [width] characters exactly when
    [v ≤ 2 ^ width - 1]. *)
Lemma bin_N_fits v (width : Z) :
  0 ≤ v → 1 ≤ width →
  (String.length (PyStr.bin_N (Z.to_N v)) ≤ Z.to_nat width)%nat
  ↔ v ≤ 2 ^ width - 1.
Proof.
  intros Hv Hw. rewrite length_bin_N.
  destruct v as [|p|p]; [| |lia]; simpl Z.to_N.
  - split; [|lia]. intros _. pose proof (Z.pow_pos_nonneg 2 width). lia.
  - rewrite size_nat_le_iff. rewrite Z2Nat.id by lia. lia.
Qed.

(** ** Running the loop bodies *)

Lemma appends_getitem row label c :
  assoc row label = Some c → appends (getitem row label) [] [] (inr c).
Proof. intros H. unfold getitem. rewrite H. apply appends_ret. Qed.

Lemma appends_getitem_raise row label :
  assoc row label = None →
  appends (getitem row label) [] [] (inl (KeyError label)).
Proof. intros H. unfold getitem. rewrite H. apply appends_raise. Qed.

Lemma appends_int c z :
  int_value c = Some z → appends (int c) [] [] (inr z).
Proof.
  destruct c as [|s|z']; simpl; [done| |].
  - intros ->. apply appends_ret.
  - intros [= ->]. apply appends_ret.
Qed.

Lemma appends_int_raise c :
  int_value c = None → ∃ msg, appends (int c) [] [] (inl (ValueError msg)).
Proof.
  destruct c as [|s|z']; simpl; [| |done].
  - intros _. eexists. apply appends_raise.
  - intros ->. eexists. apply appends_raise.
Qed.

Lemma appends_int_or c d z :
  int_or c d = Some z →
  appends (if notna c then int c else mret d) [] [] (inr z).
Proof.
  destruct c as [|s|z']; intros H; cbn [notna].
  - injection H as <-. apply appends_ret.
  - by apply (appends_int (Str s)).
  - by apply (appends_int (Int z')).
Qed.

Lemma appends_int_or_raise c d :
  int_or c d = None →
  ∃ msg, appends (if notna c then int c else mret d) [] [] (inl (ValueError msg)).
Proof.
  destruct c as [|s|z']; intros H; cbn [notna]; [done| |].
  - by apply (appends_int_raise (Str s)).
  - by apply (appends_int_raise (Int z')).
Qed.

Lemma appends_format_0b v width s :
  PyStr.format_0b v width = Some s → appends (format_0b v width) [] [] (inr s).
Proof. intros H. unfold format_0b. rewrite H. apply appends_ret. Qed.

Lemma appends_format_0b_raise v width :
  PyStr.format_0b v width = None →
  appends (format_0b v width) [] [] (inl (ValueError "Invalid format specifier")).
Proof. intros H. unfold format_0b. rewrite H. apply appends_raise. Qed.

(** Symbolic execution of straight-line code: [py_head] runs one
    statement, [py_run] a sequence of them as far as it can. *)
Ltac py_head :=
  first
    [ apply appends_ret
    | apply appends_raise
    | apply appends_print
    | apply appends_write
    | apply appends_getitem; eassumption
    | apply appends_int; eassumption
    | apply appends_int_or; eassumption
    | apply appends_format_0b; eassumption ].

Ltac py_run :=
  cbv beta iota zeta;
  first [ eapply appends_bind; [py_head|]; py_run
        | py_head
        | idtac ].

Lemma desc_text_eq c dflt :
  (if notna c then PyStr.strip (str c) else dflt) = desc_text c dflt.
Proof. by destruct c. Qed.

(** What the body of the field loop prints and writes for a row that
    has every column and integers where integers are read. *)
Lemma process_field_ok field name_c lsb_c width_c access_c reset_c desc_c
    lsb width reset reset_bin :
  assoc field "Field Name" = Some name_c →
  assoc field "LSB" = Some lsb_c →
  assoc field "Width" = Some width_c →
  assoc field "Access" = Some access_c →
  assoc field "Reset Value" = Some reset_c →
  assoc field "Description" = Some desc_c →
  int_value lsb_c = Some lsb →
  int_value width_c = Some width →
  int_or reset_c 0 = Some reset →
  PyStr.format_0b reset width = Some reset_bin →
  let field_name := sanitize_name name_c in
  let access := PyStr.strip (str access_c) in
  let sw_access := (access_to_rdl access).1 in
  let onwrite := (access_to_rdl access).2 in
  appends (process_field field)
    ["    - Campo: " +:+ field_name +:+ "[" +:+ pretty (lsb + width - 1)
     +:+ ":" +:+ pretty lsb +:+ "] = " +:+ pretty width +:+ "'b"
     +:+ reset_bin +:+ " (" +:+ access +:+ ")"]
    (["        field {" +:+ PyStr.nl;
      "            name = " +:+ PyStr.dq +:+ field_name +:+ PyStr.dq +:+ ";"
        +:+ PyStr.nl;
      "            desc = " +:+ PyStr.dq
        +:+ desc_text desc_c (field_name +:+ " field") +:+ PyStr.dq +:+ ";"
        +:+ PyStr.nl;
      "            sw = " +:+ sw_access +:+ ";" +:+ PyStr.nl;
      "            hw = r;" +:+ PyStr.nl]
     ++ (if truthy onwrite
         then ["            onwrite = " +:+ default "" onwrite +:+ ";"
               +:+ PyStr.nl]
         else [])
     ++ ["        } " +:+ field_name +:+ "[" +:+ pretty (lsb + width - 1)
         +:+ ":" +:+ pretty lsb +:+ "] = " +:+ pretty width +:+ "'b"
         +:+ reset_bin +:+ ";" +:+ PyStr.nl +:+ PyStr.nl])
    (inr ()).
Proof.
  intros Hname Hlsb Hwidth Hacc Hreset Hdesc Hl Hw Hr Hbin. cbv zeta.
  unfold process_field.
  destruct (access_to_rdl (PyStr.strip (str access_c))) as [sw ow] eqn:Ha.
  cbn [fst snd].
  destruct (truthy ow) eqn:Ht;
    (eapply appends_eq;
     [py_run; rewrite Ha; py_run; rewrite Ht; py_run
     | by rewrite ?desc_text_eq..]).
Qed.

(** ** Computations that only append *)

Lemma appends_observed {A} (m : Py A) out ws r :
  appends m out ws r → prints_of m = out ∧ writes_of m = ws ∧ result_of m = r.
Proof.
  intros H. unfold prints_of, writes_of, result_of. by rewrite (H blank).
Qed.

Lemma framed_appends {A} (m : Py A) :
  framed m → appends m (prints_of m) (writes_of m) (result_of m).
Proof.
  intros (out & ws & r & H).
  by destruct (appends_observed m out ws r H) as (-> & -> & ->).
Qed.

Lemma appends_framed {A} (m : Py A) out ws r : appends m out ws r → framed m.
Proof. intros H. by exists out, ws, r. Qed.

Lemma framed_bind {A B} (m : Py A) (f : A → Py B) :
  framed m → (∀ x, framed (f x)) → framed (m ≫= f).
Proof.
  intros (o1 & s1 & [e|x] & Hm) Hf.
  - eapply appends_framed, appends_bind_raise, Hm.
  - destruct (Hf x) as (o2 & s2 & r & Hx).
    eapply appends_framed, appends_bind; [apply Hm | apply Hx].
Qed.

Lemma framed_for_each {A} (body : A → Py ()) l :
  (∀ x, framed (body x)) → framed (for_each l body).
Proof.
  intros Hbody. induction l as [|x l IH]; simpl.
  - eapply appends_framed, appends_ret.
  - apply framed_bind; [apply Hbody | by intros _].
Qed.

Lemma framed_map_py {A B} (f : A → Py B) l :
  (∀ x, framed (f x)) → framed (map_py f l).
Proof.
  intros Hf. induction l as [|x l IH]; simpl.
  - eapply appends_framed, appends_ret.
  - apply framed_bind; [apply Hf | intros y].
    apply framed_bind; [apply IH | intros ys].
    eapply appends_framed, appends_ret.
Qed.

Lemma framed_getitem row label : framed (getitem row label).
Proof.
  unfold getitem. destruct (assoc row label);
    eapply appends_framed; [apply appends_ret | apply appends_raise].
Qed.

Lemma framed_int c : framed (int c).
Proof.
  destruct c as [|s|z]; simpl; [| destruct (PyStr.int_of_str s) |];
    eapply appends_framed;
    first [apply appends_ret | apply appends_raise].
Qed.

Lemma framed_format_0b v width : framed (format_0b v width).
Proof.
  unfold format_0b. destruct (PyStr.format_0b v width);
    eapply appends_framed; [apply appends_ret | apply appends_raise].
Qed.

Lemma framed_sort_values rows label : framed (sort_values rows label).
Proof.
  unfold sort_values. apply framed_bind.
  - apply framed_map_py. intros row.
    apply framed_bind; [apply framed_getitem | intros key].
    eapply appends_framed, appends_ret.
  - intros keyed.
    destruct (int_keyed keyed), (str_keyed keyed);
      eapply appends_framed;
      first [apply appends_ret | apply appends_raise].
Qed.

(** A computation built from the primitives only appends. *)
Ltac py_framed :=
  repeat first
    [ apply framed_getitem
    | apply framed_int
    | apply framed_format_0b
    | apply framed_sort_values
    | eapply appends_framed, appends_ret
    | eapply appends_framed, appends_raise
    | eapply appends_framed, appends_print
    | eapply appends_framed, appends_write
    | apply framed_bind; [|intros ?]
    | match goal with
      | |- framed (if ?b then _ else _) => destruct b
      | |- framed (match ?x with _ => _ end) => destruct x
      end ].

Lemma framed_process_field field : framed (process_field field).
Proof. unfold process_field. py_framed. Qed.

Lemma framed_process_register fbr register :
  framed (process_register fbr register).
Proof.
  unfold process_register. py_framed.
  apply framed_for_each, framed_process_field.
Qed.

Lemma framed_process_block rbb fbr block :
  framed (process_block rbb fbr block).
Proof.
  unfold process_block. py_framed.
  apply framed_for_each. intros r. apply framed_process_register.
Qed.

(** A loop whose body never raises on the rows it visits appends what
    the body appends for each row, in the order of the rows. *)
Lemma for_each_all_ok {A} (body : A → Py ()) l :
  (∀ x, framed (body x)) →
  Forall (λ x, result_of (body x) = inr ()) l →
  appends (for_each l body)
    (concat ((λ x, prints_of (body x)) <$> l))
    (concat ((λ x, writes_of (body x)) <$> l))
    (inr ()).
Proof.
  intros Hbody. induction 1 as [|x l Hx _ IH]; simpl.
  - apply appends_ret.
  - eapply appends_bind; [|apply IH].
    rewrite <- Hx. by apply framed_appends.
Qed.

(** ** Grouping and sorting *)

Lemma lookup_add_to_group key row (m : gmap cell (list Series)) k :
  add_to_group key row m !! k =
    if decide (key = k) then Some (row :: default [] (m !! key)) else m !! k.
Proof. unfold add_to_group. apply lookup_insert. Qed.

(** The group of a key holds the rows whose key cell is that key, in
    sheet order; a key no row has is not in [groups]. *)
Lemma groups_lookup g key :
  key ≠ NaN →
  groups g !! key =
    match filter (λ row, assoc row (gb_key g) = Some key)
                 (iterrows (gb_frame g)) with
    | [] => None
    | l => Some l
    end.
Proof.
  intros Hkey. unfold groups.
  induction (iterrows (gb_frame g)) as [|row rows IH]; [apply lookup_empty|].
  rewrite foldr_cons. 
  destruct (assoc row (gb_key g)) as [c|] eqn:Hc.
  - destruct (decide (c = key)) as [->|Hne].
    + rewrite filter_cons_True by done.
      replace (notna key) with true by (by destruct key).
      rewrite lookup_add_to_group, decide_True, IH by done.
      by destruct (filter _ rows).
    + rewrite filter_cons_False by congruence.
      destruct (notna c); [|done].
      by rewrite lookup_add_to_group, decide_False.
  - by rewrite filter_cons_False by congruence.
Qed.

Lemma groups_lookup_NaN g : groups g !! NaN = None.
Proof.
  unfold groups.
  induction (iterrows (gb_frame g)) as [|row rows IH]; [apply lookup_empty|].
  rewrite foldr_cons.
  destruct (assoc row (gb_key g)) as [[|s|z]|]; cbn [notna]; try done;
    by rewrite lookup_add_to_group, decide_False.
Qed.


Lemma groups_lookup_Some g key rows :
  groups g !! key = Some rows →
  rows = filter (λ row, assoc row (gb_key g) = Some key)
           (iterrows (gb_frame g))
  ∧ rows ≠ [].
Proof.
  destruct (decide (key = NaN)) as [->|Hkey].
  - by rewrite groups_lookup_NaN.
  - rewrite groups_lookup by done.
    destruct (filter _ _); [done|]. by intros [= <-].
Qed.

(** *** [sort_values] on integer keys *)

Global Instance le_Z_key_total : Total le_Z_key.
Proof. intros a b. unfold le_Z_key. lia. Qed.

Global Instance le_Z_key_trans : Transitive le_Z_key.
Proof. intros a b c. unfold le_Z_key. lia. Qed.







(** ** The register and block loop bodies *)

Section loop_bodies.

Context (registers_by_block fields_by_register : GroupBy).

Lemma process_register_empty register name_c offset_c desc_c width_c reg_width :
  assoc register "Register Name" = Some name_c →
  assoc register "Offset" = Some offset_c →
  assoc register "Description" = Some desc_c →
  assoc register "Width (bits)" = Some width_c →
  int_or width_c 32 = Some reg_width →
  groups fields_by_register !! Str (sanitize_name name_c) = None →
  let reg_name := sanitize_name name_c in
  let reg_offset := PyStr.strip (str offset_c) in
  appends (process_register fields_by_register register)
    ["  📝 Procesando registro: " +:+ reg_name +:+ " @ " +:+ reg_offset;
     "    ⚠ Advertencia: No se encontraron campos para el registro "
       +:+ reg_name]
    (reg_header_lines reg_name (desc_text desc_c (reg_name +:+ " Register"))
       reg_width
     ++ ["        // No se encontraron campos para este registro"
           +:+ PyStr.nl +:+ PyStr.nl;
         "    } " +:+ reg_name +:+ " @ " +:+ reg_offset +:+ ";"
           +:+ PyStr.nl +:+ PyStr.nl])
    (inr ()).
Proof.
  intros Hname Hoff Hdesc Hwidth Hw Hgroup. cbv zeta.
  unfold process_register.
  eapply appends_eq;
    [py_run; rewrite Hgroup; py_run | by rewrite ?desc_text_eq..].
Qed.

Lemma process_register_fields register name_c offset_c desc_c width_c
    reg_width register_fields :
  assoc register "Register Name" = Some name_c →
  assoc register "Offset" = Some offset_c →
  assoc register "Description" = Some desc_c →
  assoc register "Width (bits)" = Some width_c →
  int_or width_c 32 = Some reg_width →
  groups fields_by_register !! Str (sanitize_name name_c)
    = Some register_fields →
  let reg_name := sanitize_name name_c in
  let reg_offset := PyStr.strip (str offset_c) in
  let loop :=
    sorted ← sort_values register_fields "LSB";
    for_each sorted process_field;;
    write ("    } " +:+ reg_name +:+ " @ " +:+ reg_offset +:+ ";"
           +:+ PyStr.nl +:+ PyStr.nl) in
  appends (process_register fields_by_register register)
    (("  📝 Procesando registro: " +:+ reg_name +:+ " @ " +:+ reg_offset)
     :: prints_of loop)
    (reg_header_lines reg_name (desc_text desc_c (reg_name +:+ " Register"))
       reg_width
     ++ writes_of loop)
    (result_of loop).
Proof.
  intros Hname Hoff Hdesc Hwidth Hw Hgroup. cbv zeta.
  unfold process_register.
  eapply appends_eq;
    [ py_run; rewrite Hgroup; apply framed_appends; py_framed;
      apply framed_for_each, framed_process_field
    | by rewrite ?desc_text_eq..].
Qed.

Lemma process_register_bad_width register name_c offset_c desc_c width_c :
  assoc register "Register Name" = Some name_c →
  assoc register "Offset" = Some offset_c →
  assoc register "Description" = Some desc_c →
  assoc register "Width (bits)" = Some width_c →
  int_or width_c 32 = None →
  ∃ msg, appends (process_register fields_by_register register) [] []
           (inl (ValueError msg)).
Proof.
  intros Hname Hoff Hdesc Hwidth Hw.
  destruct (appends_int_or_raise _ _ Hw) as [msg Hmsg]. exists msg.
  unfold process_register.
  eapply appends_eq;
    [py_run; eapply appends_bind_raise, Hmsg | done..].
Qed.

Lemma process_block_empty block name_c addr_c desc_c :
  assoc block "Block Name" = Some name_c →
  assoc block "Base Address" = Some addr_c →
  assoc block "Description" = Some desc_c →
  groups registers_by_block !! Str (sanitize_name name_c) = None →
  let block_name := sanitize_name name_c in
  appends (process_block registers_by_block fields_by_register block)
    [PyStr.nl +:+ "📦 Procesando bloque: " +:+ block_name;
     "  ⚠ Advertencia: No se encontraron registros para el bloque "
       +:+ block_name]
    ["addrmap " +:+ block_name +:+ " {" +:+ PyStr.nl;
     "    name = " +:+ PyStr.dq +:+ block_name +:+ PyStr.dq +:+ ";"
       +:+ PyStr.nl;
     "    desc = " +:+ PyStr.dq +:+ desc_text desc_c (block_name +:+ " Block")
       +:+ PyStr.dq +:+ ";" +:+ PyStr.nl +:+ PyStr.nl;
     "    // No se encontraron registros para este bloque"
       +:+ PyStr.nl +:+ PyStr.nl;
     "};" +:+ PyStr.nl +:+ PyStr.nl]
    (inr ()).
Proof.
  intros Hname Haddr Hdesc Hgroup. cbv zeta. unfold process_block.
  eapply appends_eq;
    [py_run; rewrite Hgroup; py_run | by rewrite ?desc_text_eq..].
Qed.

Lemma process_block_registers block name_c addr_c desc_c block_registers :
  assoc block "Block Name" = Some name_c →
  assoc block "Base Address" = Some addr_c →
  assoc block "Description" = Some desc_c →
  groups registers_by_block !! Str (sanitize_name name_c)
    = Some block_registers →
  let block_name := sanitize_name name_c in
  let loop :=
    for_each block_registers (process_register fields_by_register);;
    write ("};" +:+ PyStr.nl +:+ PyStr.nl) in
  appends (process_block registers_by_block fields_by_register block)
    ((PyStr.nl +:+ "📦 Procesando bloque: " +:+ block_name) :: prints_of loop)
    (["addrmap " +:+ block_name +:+ " {" +:+ PyStr.nl;
      "    name = " +:+ PyStr.dq +:+ block_name +:+ PyStr.dq +:+ ";"
        +:+ PyStr.nl;
      "    desc = " +:+ PyStr.dq +:+ desc_text desc_c (block_name +:+ " Block")
        +:+ PyStr.dq +:+ ";" +:+ PyStr.nl +:+ PyStr.nl]
     ++ writes_of loop)
    (result_of loop).
Proof.
  intros Hname Haddr Hdesc Hgroup. cbv zeta. unfold process_block.
  eapply appends_eq;
    [ py_run; rewrite Hgroup; apply framed_appends; py_framed;
      apply framed_for_each; intros r; apply framed_process_register
    | by rewrite ?desc_text_eq..].
Qed.

End loop_bodies.

(** ** C2: the access mapper *)

(** C2. For every string, [access_to_rdl] returns (rw, no side effect)
    for "rw" in any letter case, (r, none) for "ro", (w, none) for "wo",
    (w, woclr) for "w1c", and (r, none) for any other string; being a
    total function, it raises nothing. *)
Theorem access_to_rdl_table (s : string) :
  (any_case "rw" s → access_to_rdl s = ("rw", None))
  ∧ (any_case "ro" s → access_to_rdl s = ("r", None))
  ∧ (any_case "wo" s → access_to_rdl s = ("w", None))
  ∧ (any_case "w1c" s → access_to_rdl s = ("w", Some "woclr"))
  ∧ (¬ any_case "rw" s → ¬ any_case "ro" s → ¬ any_case "wo" s →
     ¬ any_case "w1c" s → access_to_rdl s = ("r", None)).
Proof.
  unfold access_to_rdl. rewrite access_map_lookup.
  rewrite !any_case_lower by done.
  repeat split; intros; repeat case_decide; simplify_eq;
    first [done | congruence].
Qed.

Lemma access_to_rdl_table_witness :
  (any_case "rw" "Rw" ∧ access_to_rdl "Rw" = ("rw", None))
  ∧ (any_case "ro" "RO" ∧ access_to_rdl "RO" = ("r", None))
  ∧ (any_case "wo" "wO" ∧ access_to_rdl "wO" = ("w", None))
  ∧ (any_case "w1c" "W1c" ∧ access_to_rdl "W1c" = ("w", Some "woclr"))
  ∧ (¬ any_case "rw" "rwx" ∧ access_to_rdl "rwx" = ("r", None)).
Proof.
  destruct (access_to_rdl_table "Rw") as (Hrw & _).
  destruct (access_to_rdl_table "RO") as (_ & Hro & _).
  destruct (access_to_rdl_table "wO") as (_ & _ & Hwo & _).
  destruct (access_to_rdl_table "W1c") as (_ & _ & _ & Hw1c & _).
  destruct (access_to_rdl_table "rwx") as (_ & _ & _ & _ & Hother).
  assert (Hany : ∀ P Q : Prop, P → (P → Q) → P ∧ Q) by tauto.
  split; [apply Hany; [|apply Hrw]; vm_compute; intuition congruence|].
  split; [apply Hany; [|apply Hro]; vm_compute; intuition congruence|].
  split; [apply Hany; [|apply Hwo]; vm_compute; intuition congruence|].
  split; [apply Hany; [|apply Hw1c]; vm_compute; intuition congruence|].
  split; [|apply Hother]; vm_compute; intuition congruence.
Defined.

(** ** C3: bit range and reset literal *)

(** C3. For a field row with LSB [lsb ≥ 0], width [width ≥ 1] and reset
    value [reset ≥ 0] (0 when the cell is empty), the closing line of
    the field shows the MSB [lsb + width - 1], and its reset literal is
    the binary form of [reset] behind zeros: exactly [width] characters
    when [reset ≤ 2 ^ width - 1], more than [width] characters (nothing
    cut, nothing refused) when [reset] is larger. *)
Theorem field_range_and_reset_literal
    field name_c lsb_c width_c access_c reset_c desc_c lsb width reset :
  assoc field "Field Name" = Some name_c →
  assoc field "LSB" = Some lsb_c →
  assoc field "Width" = Some width_c →
  assoc field "Access" = Some access_c →
  assoc field "Reset Value" = Some reset_c →
  assoc field "Description" = Some desc_c →
  int_value lsb_c = Some lsb →
  int_value width_c = Some width →
  int_or reset_c 0 = Some reset →
  0 ≤ lsb → 1 ≤ width → 0 ≤ reset →
  ∃ reset_bin out head,
    appends (process_field field) out
      (head ++ ["        } " +:+ sanitize_name name_c +:+ "["
                +:+ pretty (lsb + width - 1) +:+ ":" +:+ pretty lsb
                +:+ "] = " +:+ pretty width +:+ "'b" +:+ reset_bin +:+ ";"
                +:+ PyStr.nl +:+ PyStr.nl])
      (inr ())
    ∧ bin_value reset_bin = Some (Z.to_N reset)
    ∧ reset_bin =
        PyStr.repeat "0" (String.length reset_bin
                          - String.length (PyStr.bin_N (Z.to_N reset)))
        +:+ PyStr.bin_N (Z.to_N reset)
    ∧ (reset ≤ 2 ^ width - 1 → Z.of_nat (String.length reset_bin) = width)
    ∧ (2 ^ width - 1 < reset → width < Z.of_nat (String.length reset_bin)).
Proof.
  intros Hname Hlsb Hwidth Hacc Hreset Hdesc Hl Hw Hr Hl0 Hw1 Hr0.
  destruct (format_0b_nonneg reset width) as (s & Hs & Hpad & Hval & Hlen);
    [lia..|].
  pose proof (process_field_ok _ _ _ _ _ _ _ _ _ _ _
                Hname Hlsb Hwidth Hacc Hreset Hdesc Hl Hw Hr Hs) as Hrun.
  cbv zeta in Hrun. rewrite app_assoc in Hrun.
  eexists s, _, _. split; [exact Hrun|]. split; [done|].
  pose proof (bin_N_fits reset width Hr0 Hw1) as Hfit.
  split; [|split].
  - rewrite Hlen. rewrite Hpad at 1. do 2 f_equal. lia.
  - intros Hsmall. rewrite Hlen. apply Hfit in Hsmall. lia.
  - intros Hbig. rewrite Hlen.
    assert (¬ (String.length (PyStr.bin_N (Z.to_N reset)) ≤ Z.to_nat width)%nat)
      by (rewrite Hfit; lia).
    lia.
Qed.

Lemma field_range_and_reset_literal_witness :
  ∃ reset_bin out head,
    appends (process_field en_field) out
      (head ++ ["        } EN[6:4] = 3'b" +:+ reset_bin +:+ ";"
                +:+ PyStr.nl +:+ PyStr.nl])
      (inr ())
    ∧ bin_value reset_bin = Some 5%N
    ∧ reset_bin = PyStr.repeat "0" (String.length reset_bin - 3) +:+ "101"
    ∧ (5 ≤ 2 ^ 3 - 1 → Z.of_nat (String.length reset_bin) = 3)
    ∧ (2 ^ 3 - 1 < 5 → 3 < Z.of_nat (String.length reset_bin)).
Proof.
  apply (field_range_and_reset_literal en_field
           (Str "EN") (Int 4) (Int 3) (Str "w1c") (Int 5) NaN 4 3 5);
    first [reflexivity | lia].
Defined.

(** ** C5: items without children *)

Lemma process_register_header fields_by_register register
    name_c offset_c desc_c width_c reg_width :
  assoc register "Register Name" = Some name_c →
  assoc register "Offset" = Some offset_c →
  assoc register "Description" = Some desc_c →
  assoc register "Width (bits)" = Some width_c →
  int_or width_c 32 = Some reg_width →
  ∃ out rest r,
    appends (process_register fields_by_register register) out
      (reg_header_lines (sanitize_name name_c)
         (desc_text desc_c (sanitize_name name_c +:+ " Register")) reg_width
       ++ rest)
      r.
Proof.
  intros Hname Hoff Hdesc Hwidth Hw.
  destruct (groups fields_by_register !! Str (sanitize_name name_c))
    as [group|] eqn:Hgroup.
  - eexists _, _, _.
    by eapply process_register_fields.
  - eexists _, _, _.
    by eapply process_register_empty.
Qed.

Lemma process_block_header registers_by_block fields_by_register block
    name_c addr_c desc_c :
  assoc block "Block Name" = Some name_c →
  assoc block "Base Address" = Some addr_c →
  assoc block "Description" = Some desc_c →
  let block_name := sanitize_name name_c in
  ∃ out rest r,
    appends (process_block registers_by_block fields_by_register block) out
      (["addrmap " +:+ block_name +:+ " {" +:+ PyStr.nl;
        "    name = " +:+ PyStr.dq +:+ block_name +:+ PyStr.dq +:+ ";"
          +:+ PyStr.nl;
        "    desc = " +:+ PyStr.dq
          +:+ desc_text desc_c (block_name +:+ " Block")
          +:+ PyStr.dq +:+ ";" +:+ PyStr.nl +:+ PyStr.nl]
       ++ rest)
      r.
Proof.
  intros Hname Haddr Hdesc. cbv zeta.
  destruct (groups registers_by_block !! Str (sanitize_name name_c))
    as [group|] eqn:Hgroup.
  - eexists _, _, _.
    by eapply process_block_registers.
  - eexists _, _, _.
    by eapply (process_block_empty _ _ _ _ _ _ Hname Haddr Hdesc Hgroup).
Qed.




(** ** C9: descriptions *)

Lemma format_0b_some v width :
  0 ≤ width → ∃ s, PyStr.format_0b v width = Some s.
Proof.
  intros Hw. unfold PyStr.format_0b. case_decide; [lia|]. by eexists.
Qed.

Lemma desc_text_cases c dflt :
  (c = NaN → desc_text c dflt = dflt)
  ∧ (c ≠ NaN → desc_text c dflt = PyStr.strip (str c)).
Proof. by destruct c. Qed.

(** C9. The description line of a block, of a register and of a field
    carries the identifier followed by " Block", " Register" or " field"
    when the Description cell is empty, and the text of the cell without
    surrounding whitespace when it is not. *)
Theorem description_defaults
    (registers_by_block fields_by_register : GroupBy) :
  (∀ block name_c addr_c desc_c,
     assoc block "Block Name" = Some name_c →
     assoc block "Base Address" = Some addr_c →
     assoc block "Description" = Some desc_c →
     ∃ desc out pre rest r,
       appends (process_block registers_by_block fields_by_register block)
         out
         (pre ++ ["    desc = " +:+ PyStr.dq +:+ desc +:+ PyStr.dq +:+ ";"
                  +:+ PyStr.nl +:+ PyStr.nl] ++ rest)
         r
       ∧ length pre = 2%nat
       ∧ (desc_c = NaN → desc = sanitize_name name_c +:+ " Block")
       ∧ (desc_c ≠ NaN → desc = PyStr.strip (str desc_c)))
  ∧ (∀ register name_c offset_c desc_c width_c reg_width,
       assoc register "Register Name" = Some name_c →
       assoc register "Offset" = Some offset_c →
       assoc register "Description" = Some desc_c →
       assoc register "Width (bits)" = Some width_c →
       int_or width_c 32 = Some reg_width →
       ∃ desc out pre rest r,
         appends (process_register fields_by_register register) out
           (pre ++ ["        desc = " +:+ PyStr.dq +:+ desc +:+ PyStr.dq
                    +:+ ";" +:+ PyStr.nl] ++ rest)
           r
         ∧ length pre = 3%nat
         ∧ (desc_c = NaN → desc = sanitize_name name_c +:+ " Register")
         ∧ (desc_c ≠ NaN → desc = PyStr.strip (str desc_c)))
  ∧ (∀ field name_c lsb_c width_c access_c reset_c desc_c lsb width reset,
       assoc field "Field Name" = Some name_c →
       assoc field "LSB" = Some lsb_c →
       assoc field "Width" = Some width_c →
       assoc field "Access" = Some access_c →
       assoc field "Reset Value" = Some reset_c →
       assoc field "Description" = Some desc_c →
       int_value lsb_c = Some lsb →
       int_value width_c = Some width →
       int_or reset_c 0 = Some reset →
       0 ≤ width →
       ∃ desc out pre rest,
         appends (process_field field) out
           (pre ++ ["            desc = " +:+ PyStr.dq +:+ desc +:+ PyStr.dq
                    +:+ ";" +:+ PyStr.nl] ++ rest)
           (inr ())
         ∧ length pre = 2%nat
         ∧ (desc_c = NaN → desc = sanitize_name name_c +:+ " field")
         ∧ (desc_c ≠ NaN → desc = PyStr.strip (str desc_c))).
Proof.
  split; [|split].
  - intros block name_c addr_c desc_c Hname Haddr Hdesc.
    destruct (process_block_header registers_by_block fields_by_register
                block _ _ _ Hname Haddr Hdesc) as (out & rest & r & Hrun).
    destruct (desc_text_cases desc_c (sanitize_name name_c +:+ " Block"))
      as [Hnan Htext].
    eexists _, out, [_; _], rest, r.
    split; [exact Hrun|]. by repeat split.
  - intros register name_c offset_c desc_c width_c reg_width
      Hname Hoff Hdesc Hwidth Hw.
    destruct (process_register_header fields_by_register register
                _ _ _ _ _ Hname Hoff Hdesc Hwidth Hw)
      as (out & rest & r & Hrun).
    destruct (desc_text_cases desc_c (sanitize_name name_c +:+ " Register"))
      as [Hnan Htext].
    eexists _, out, [_; _; _], (_ :: rest), r.
    split; [exact Hrun|]. by repeat split.
  - intros field name_c lsb_c width_c access_c reset_c desc_c
      lsb width reset Hname Hlsb Hwidth Hacc Hreset Hdesc Hl Hw Hr Hw0.
    destruct (format_0b_some reset width Hw0) as [reset_bin Hbin].
    pose proof (process_field_ok _ _ _ _ _ _ _ _ _ _ _
                  Hname Hlsb Hwidth Hacc Hreset Hdesc Hl Hw Hr Hbin) as Hrun.
    destruct (desc_text_cases desc_c (sanitize_name name_c +:+ " field"))
      as [Hnan Htext].
    eexists _, _, [_; _], _.
    split; [exact Hrun|]. by repeat split.
Qed.

Lemma description_defaults_witness :
  let registers_by_block :=
    {| gb_frame := uart_registers; gb_key := "Block Name" |} in
  let fields_by_register :=
    {| gb_frame := uart_fields; gb_key := "Register Name" |} in
  (∃ out pre rest r,
     appends (process_block registers_by_block fields_by_register uart_block)
       out
       (pre ++ ["    desc = " +:+ PyStr.dq +:+ "UART Block" +:+ PyStr.dq
                +:+ ";" +:+ PyStr.nl +:+ PyStr.nl] ++ rest)
       r)
  ∧ (∃ out pre rest r,
       appends (process_register fields_by_register ctrl_register) out
         (pre ++ ["        desc = " +:+ PyStr.dq +:+ "control" +:+ PyStr.dq
                  +:+ ";" +:+ PyStr.nl] ++ rest)
         r)
  ∧ (∃ out pre rest,
       appends (process_field en_field) out
         (pre ++ ["            desc = " +:+ PyStr.dq +:+ "EN field"
                  +:+ PyStr.dq +:+ ";" +:+ PyStr.nl] ++ rest)
         (inr ())).
Proof.
  intros registers_by_block fields_by_register.
  destruct (description_defaults registers_by_block fields_by_register)
    as (Hblock & Hregister & Hfield).
  split; [|split].
  - destruct (Hblock uart_block (Str "UART") (Str "0x1000") NaN)
      as (desc & out & pre & rest & r & Hrun & _ & Hnan & _);
      [reflexivity..|].
    rewrite (Hnan eq_refl) in Hrun. exists out, pre, rest, r. exact Hrun.
  - destruct (Hregister ctrl_register (Str "CTRL") (Str "0x00")
                (Str " control ") NaN 32)
      as (desc & out & pre & rest & r & Hrun & _ & _ & Htext);
      [reflexivity..|].
    rewrite (Htext ltac:(discriminate)) in Hrun.
    exists out, pre, rest, r. exact Hrun.
  - destruct (Hfield en_field (Str "EN") (Int 4) (Int 3) (Str "w1c") (Int 5)
                NaN 4 3 5)
      as (desc & out & pre & rest & Hrun & _ & Hnan & _);
      [reflexivity || lia..|].
    rewrite (Hnan eq_refl) in Hrun. exists out, pre, rest. exact Hrun.
Defined.

(** ** C7: register width *)

(** C7, as the code has it.  For a register row: an empty
    "Width (bits)" cell gives the line [regwidth = 32;]; a cell that
    holds an integer gives that integer; a cell that is not empty and
    holds no integer makes [int] raise ValueError before anything of the
    register is printed or written. *)
Theorem register_width_line fields_by_register register
    name_c offset_c desc_c width_c :
  assoc register "Register Name" = Some name_c →
  assoc register "Offset" = Some offset_c →
  assoc register "Description" = Some desc_c →
  assoc register "Width (bits)" = Some width_c →
  (width_c = NaN →
     ∃ out pre rest r,
       appends (process_register fields_by_register register) out
         (pre ++ ["        regwidth = 32;" +:+ PyStr.nl +:+ PyStr.nl] ++ rest)
         r
       ∧ length pre = 4%nat)
  ∧ (∀ z, width_c ≠ NaN → int_value width_c = Some z →
       ∃ out pre rest r,
         appends (process_register fields_by_register register) out
           (pre ++ ["        regwidth = " +:+ pretty z +:+ ";" +:+ PyStr.nl
                    +:+ PyStr.nl] ++ rest)
           r
         ∧ length pre = 4%nat)
  ∧ (width_c ≠ NaN → int_value width_c = None →
       ∃ msg,
         appends (process_register fields_by_register register) [] []
           (inl (ValueError msg))).
Proof.
  intros Hname Hoff Hdesc Hwidth. split; [|split].
  - intros ->.
    destruct (process_register_header fields_by_register register
                _ _ _ _ 32 Hname Hoff Hdesc Hwidth eq_refl)
      as (out & rest & r & Hrun).
    eexists out, [_; _; _; _], rest, r. split; [exact Hrun | done].
  - intros z Hnan Hz.
    assert (Hw : int_or width_c 32 = Some z) by (by destruct width_c).
    destruct (process_register_header fields_by_register register
                _ _ _ _ z Hname Hoff Hdesc Hwidth Hw)
      as (out & rest & r & Hrun).
    eexists out, [_; _; _; _], rest, r. split; [exact Hrun | done].
  - intros Hnan Hz.
    assert (Hw : int_or width_c 32 = None) by (by destruct width_c).
    by eapply process_register_bad_width.
Qed.

Lemma register_width_line_witness :
  let fields_by_register :=
    {| gb_frame := uart_fields; gb_key := "Register Name" |} in
  (∃ out pre rest r,
     appends (process_register fields_by_register ctrl_register) out
       (pre ++ ["        regwidth = 32;" +:+ PyStr.nl +:+ PyStr.nl] ++ rest) r
     ∧ length pre = 4%nat)
  ∧ (∃ out pre rest r,
       appends (process_register fields_by_register status_register) out
         (pre ++ ["        regwidth = 16;" +:+ PyStr.nl +:+ PyStr.nl] ++ rest) r
       ∧ length pre = 4%nat)
  ∧ (∃ msg,
       appends (process_register fields_by_register bad_width_register)
         [] [] (inl (ValueError msg))).
Proof.
  intros fields_by_register. split; [|split].
  - destruct (register_width_line fields_by_register ctrl_register
                (Str "CTRL") (Str "0x00") (Str " control ") NaN)
      as (Hnan & _); [reflexivity..|].
    exact (Hnan eq_refl).
  - destruct (register_width_line fields_by_register status_register
                (Str "STAT") (Str "0x04") (Str "status") (Str " 16 "))
      as (_ & Hint & _); [reflexivity..|].
    apply (Hint 16); [discriminate | reflexivity].
  - destruct (register_width_line fields_by_register bad_width_register
                (Str "CTRL") (Str "0x00") NaN (Str "abc"))
      as (_ & _ & Hbad); [reflexivity..|].
    apply Hbad; [discriminate | reflexivity].
Defined.

(** The claim as the specification words it fails: with the text "abc"
    in the width cell no [regwidth] line is written at all. *)
Lemma unparseable_width_is_not_defaulted :
  ¬ width_defaults_to_32
      {| gb_frame := no_fields; gb_key := "Register Name" |}
      bad_width_register.
Proof.
  intros H. specialize (H (Str "abc") eq_refl eq_refl).
  vm_compute in H. by apply elem_of_nil in H.
Qed.

(** ** C4: order of the fields *)







(** ** C1: which rows are nested where *)

(** The register loop of a block visits the register rows whose
    "Block Name" cell is the text of the block's identifier, in sheet
    order; the identifier is the sanitized name, not the cell. *)
Lemma block_registers_selected registers_by_block block_name :
  block_registers registers_by_block block_name =
    filter (λ row, assoc row (gb_key registers_by_block)
                   = Some (Str block_name))
           (iterrows (gb_frame registers_by_block)).
Proof.
  unfold block_registers. rewrite groups_lookup by done.
  by destruct (filter _ _).
Qed.

Lemma block_registers_lookup registers_by_block block_name rows :
  groups registers_by_block !! Str block_name = Some rows →
  block_registers registers_by_block block_name = rows.
Proof. unfold block_registers. by intros ->. Qed.

(** For a name the sanitizer leaves as it is, these are the rows whose
    cell equals the block's cell. *)
Lemma block_registers_of_clean_name registers_by_block s :
  sanitize_name (Str s) = s →
  block_registers registers_by_block (sanitize_name (Str s)) =
    filter (λ row, assoc row (gb_key registers_by_block) = Some (Str s))
           (iterrows (gb_frame registers_by_block)).
Proof. intros ->. apply block_registers_selected. Qed.

Lemma map_py_getitem rows label :
  appends (map_py (λ row, key ← getitem row label; mret (key, row)) rows)
    [] []
    (match mapM (λ row, assoc row label) rows with
     | Some keys => inr (zip keys rows)
     | None => inl (KeyError label)
     end).
Proof.
  induction rows as [|row rows IH]; simpl; [apply appends_ret|].
  destruct (assoc row label) as [key|] eqn:Hkey; simpl.
  - destruct (mapM _ rows) as [keys|]; simpl.
    + eapply appends_eq;
        [ eapply appends_bind;
          [ eapply appends_bind; [by apply appends_getitem | apply appends_ret]
          | eapply appends_bind; [apply IH | apply appends_ret] ]
        | done..].
    + eapply appends_eq;
        [ eapply appends_bind;
          [ eapply appends_bind; [by apply appends_getitem | apply appends_ret]
          | eapply appends_bind_raise, IH ]
        | done..].
  - eapply appends_eq;
      [ eapply appends_bind_raise, appends_bind_raise;
        by apply appends_getitem_raise
      | done..].
Qed.

Lemma keyed_partition (keyed : list (cell * Series)) :
  (snd <$> int_keyed keyed) ++ (snd <$> str_keyed keyed) ++ nan_keyed keyed
  ≡ₚ snd <$> keyed.
Proof.
  unfold int_keyed, str_keyed, nan_keyed.
  induction keyed as [|[[|s|z] row] keyed IH]; simpl; [done|..].
  - rewrite <- IH. by rewrite <- !Permutation_middle.
  - rewrite <- IH. by rewrite <- !Permutation_middle.
  - by rewrite <- IH.
Qed.

Lemma result_of_bind {A B} (m : Py A) (f : A → Py B) r :
  appends m [] [] r →
  result_of (m ≫= f) =
    match r with inl e => inl e | inr x => result_of (f x) end.
Proof.
  intros Hm. unfold result_of at 1. unfold mbind, Py_bind.
  rewrite Hm, emit_nil. by destruct r.
Qed.

(** Whatever the keys, [sort_values] returns a rearrangement of the rows
    when it returns. *)
Lemma sort_values_Permutation rows label sorted :
  result_of (sort_values rows label) = inr sorted → sorted ≡ₚ rows.
Proof.
  unfold sort_values.
  rewrite (result_of_bind _ _ _ (map_py_getitem rows label)).
  destruct (mapM _ rows) as [keys|] eqn:Hkeys; [|done].
  unfold result_of.
  apply length_mapM in Hkeys.
  pose proof (keyed_partition (zip keys rows)) as Hpart.
  rewrite snd_zip in Hpart by lia.
  set (keyed := zip keys rows) in *. clearbody keyed.
  destruct (int_keyed keyed) as [|p ints] eqn:Hi;
    destruct (str_keyed keyed) as [|q strs] eqn:Hs;
    simpl; intros [= <-]; (etrans; [|exact Hpart]); simpl.
  - done.
  - by rewrite merge_sort_Permutation.
  - by rewrite merge_sort_Permutation.
Qed.

(** The field loop of a register visits a rearrangement of the field
    rows whose "Register Name" cell is the text of the register's
    identifier. *)
Lemma register_fields_selected fields_by_register reg_name fields :
  register_fields fields_by_register reg_name = inr fields →
  fields ≡ₚ filter (λ row, assoc row (gb_key fields_by_register)
                            = Some (Str reg_name))
                   (iterrows (gb_frame fields_by_register)).
Proof.
  unfold register_fields. rewrite groups_lookup by done.
  destruct (filter _ _) as [|row group] eqn:Hgroup.
  - by intros [= <-].
  - apply sort_values_Permutation.
Qed.

(** C1 at a block whose name holds a space.  The one register row has
    the very "Block Name" cell of the block, yet the identifier "A_B" is
    no key of [groups]: the register loop visits nothing and the file
    holds the placeholder comment instead of the register. *)
Theorem spaced_block_name_loses_its_registers :
  let registers_by_block :=
    {| gb_frame := spaced_registers; gb_key := "Block Name" |} in
  filter (λ row, assoc row "Block Name" = Some (Str "A B"))
         (iterrows spaced_registers)
    = iterrows spaced_registers
  ∧ length (iterrows spaced_registers) = 1%nat
  ∧ Forall (λ block, assoc block "Block Name" = Some (Str "A B"))
           (iterrows spaced_blocks)
  ∧ block_registers registers_by_block (sanitize_name (Str "A B")) = []
  ∧ written (generate_rdl_from_excel
               (workbook spaced_blocks spaced_registers no_fields)
               "spec.xlsx" "out.rdl" (fresh [])).1
    = Some ["addrmap A_B {" +:+ PyStr.nl;
            "    name = " +:+ PyStr.dq +:+ "A_B" +:+ PyStr.dq +:+ ";"
              +:+ PyStr.nl;
            "    desc = " +:+ PyStr.dq +:+ "A_B Block" +:+ PyStr.dq +:+ ";"
              +:+ PyStr.nl +:+ PyStr.nl;
            "    // No se encontraron registros para este bloque"
              +:+ PyStr.nl +:+ PyStr.nl;
            "};" +:+ PyStr.nl +:+ PyStr.nl].
Proof.
  cbv zeta. repeat split; try (vm_compute; reflexivity).
  repeat constructor.
Qed.

(** ** C6: exit status *)

Section exit_status.

Context (env : Env).

(** Whatever happens in its [try] block, [generate_rdl_from_excel]
    returns normally. *)
Lemma generate_returns excel_file output_file w :
  (generate_rdl_from_excel env excel_file output_file w).2 = inr ().
Proof.
  unfold generate_rdl_from_excel, try_except.
  destruct (generate_body env excel_file output_file w) as [w' [e|[]]];
    [|done].
  by destruct e.
Qed.

Lemma appends_handler excel_file e :
  ∃ msgs,
    appends (generate_handler excel_file e) msgs [] (inr ())
    ∧ head msgs =
        Some match e with
             | FileNotFoundError _ =>
                 "❌ Error: No se pudo encontrar el archivo " +:+ excel_file
             | KeyError _ =>
                 "❌ Error: No se encontró la columna o hoja esperada: "
                 +:+ exn_str e
             | _ => "❌ Error al procesar el archivo: " +:+ exn_str e
             end.
Proof.
  destruct e; simpl; eexists;
    (split; [eapply appends_eq; [py_run | done..] | done]).
Qed.



End exit_status.


(** ** C8: sanitized identifiers *)

Lemma app_str_cons c s t : String c s +:+ t = String c (s +:+ t).
Proof. done. Qed.

Lemma lstrip_spec s :
  ∃ pre, s = pre +:+ PyStr.lstrip s
       ∧ all_space pre = true
       ∧ head_space (PyStr.lstrip s) = false.
Proof.
  induction s as [|c s (pre & Hs & Hpre & Hhead)]; [by exists ""|].
  simpl. destruct (PyStr.isspace c) eqn:Hc.
  - exists (String c pre). rewrite app_str_cons, <- Hs. simpl.
    by rewrite Hc, Hpre.
  - exists "". simpl. by rewrite Hc.
Qed.

Lemma rstrip_spec s :
  ∃ post, s = PyStr.rstrip s +:+ post
        ∧ all_space post = true
        ∧ last_space (PyStr.rstrip s) = false
        ∧ (head_space s = false → head_space (PyStr.rstrip s) = false).
Proof.
  induction s as [|c s (post & Hs & Hpost & Hlast & _)]; [by exists ""|].
  simpl. destruct (PyStr.rstrip s) as [|d t] eqn:Ht.
  - change ("" +:+ post) with post in Hs. subst post.
    destruct (PyStr.isspace c) eqn:Hc.
    + exists (String c s). simpl. by rewrite Hc, Hpost.
    + exists s. simpl. by rewrite Hc.
  - exists post. rewrite app_str_cons, <- Hs. by destruct t.
Qed.

(** [strip] removes a run of whitespace at each end, and all of it. *)
Lemma strip_spec s :
  ∃ pre post,
    s = pre +:+ PyStr.strip s +:+ post
    ∧ all_space pre = true
    ∧ all_space post = true
    ∧ head_space (PyStr.strip s) = false
    ∧ last_space (PyStr.strip s) = false.
Proof.
  destruct (lstrip_spec s) as (pre & Hs & Hpre & Hhead).
  destruct (rstrip_spec (PyStr.lstrip s)) as (post & Hl & Hpost & Hlast & Hkeep).
  exists pre, post. unfold PyStr.strip.
  split; [by rewrite <- Hl|]. auto.
Qed.

Lemma map_chars_map_chars f g s :
  PyStr.map_chars f (PyStr.map_chars g s) = PyStr.map_chars (f ∘ g) s.
Proof. induction s as [|c s IH]; simpl; [done|]. by rewrite IH. Qed.

Lemma map_chars_ext f g s :
  (∀ c, f c = g c) → PyStr.map_chars f s = PyStr.map_chars g s.
Proof. intros Hfg. induction s as [|c s IH]; simpl; [done|]. by rewrite Hfg, IH. Qed.

Lemma length_map_chars f s :
  String.length (PyStr.map_chars f s) = String.length s.
Proof. induction s as [|c s IH]; simpl; [done|]. by rewrite IH. Qed.



(** ** C10: the output file is a function of the three sheets *)






Section two_runs.

Context (env1 env2 : Env) (excel1 excel2 output1 output2 : string).






End two_runs.



(** * Further properties of the generator *)


(** ** A field is written whole or not at all *)

(** [py_raise lem]: the code runs up to a statement that raises, the
    raising statement being handled by [lem]. *)
Ltac py_raise lem :=
  eapply appends_eq;
  [ py_run; first [ eapply appends_bind_raise, lem | eapply lem ];
    eassumption
  | done.. ].

(** X1. The body of the field loop never leaves a field half written:
    either it prints one progress line and writes the whole construct,
    six or seven lines from [field {] on, or it raises before anything
    is printed or written. *)
Theorem field_written_whole_or_not_at_all (field : Series) :
  (∃ out ws,
     appends (process_field field) [out] ws (inr ())
     ∧ (length ws = 6 ∨ length ws = 7)%nat
     ∧ head ws = Some ("        field {" +:+ PyStr.nl))
  ∨ (∃ e, appends (process_field field) [] [] (inl e)).
Proof.
  destruct (assoc field "Field Name") as [name_c|] eqn:Hname;
    [|right; eexists; unfold process_field;
      py_raise appends_getitem_raise].
  destruct (assoc field "LSB") as [lsb_c|] eqn:Hlsb;
    [|right; eexists; unfold process_field;
      py_raise appends_getitem_raise].
  destruct (int_value lsb_c) as [lsb|] eqn:Hl;
    [|right; destruct (appends_int_raise _ Hl) as [msg Hmsg]; eexists;
      unfold process_field;
      eapply appends_eq;
        [py_run; eapply appends_bind_raise, Hmsg | done..]].
  destruct (assoc field "Width") as [width_c|] eqn:Hwidth;
    [|right; eexists; unfold process_field;
      py_raise appends_getitem_raise].
  destruct (int_value width_c) as [width|] eqn:Hw;
    [|right; destruct (appends_int_raise _ Hw) as [msg Hmsg]; eexists;
      unfold process_field;
      eapply appends_eq;
        [py_run; eapply appends_bind_raise, Hmsg | done..]].
  destruct (assoc field "Access") as [access_c|] eqn:Hacc;
    [|right; eexists; unfold process_field;
      py_raise appends_getitem_raise].
  destruct (assoc field "Reset Value") as [reset_c|] eqn:Hreset;
    [|right; eexists; unfold process_field;
      py_raise appends_getitem_raise].
  destruct (int_or reset_c 0) as [reset|] eqn:Hr;
    [|right; destruct (appends_int_or_raise _ _ Hr) as [msg Hmsg]; eexists;
      unfold process_field;
      eapply appends_eq;
        [py_run; eapply appends_bind_raise, Hmsg | done..]].
  destruct (assoc field "Description") as [desc_c|] eqn:Hdesc;
    [|right; eexists; unfold process_field;
      py_raise appends_getitem_raise].
  destruct (PyStr.format_0b reset width) as [reset_bin|] eqn:Hbin.
  - left.
    pose proof (process_field_ok _ _ _ _ _ _ _ _ _ _ _
                  Hname Hlsb Hwidth Hacc Hreset Hdesc Hl Hw Hr Hbin) as Hrun.
    cbv zeta in Hrun. eexists _, _. split; [exact Hrun|].
    split; [|done].
    destruct (truthy _); simpl; auto.
  - right. eexists. unfold process_field.
    eapply appends_eq;
      [ py_run;
        destruct (access_to_rdl (PyStr.strip (str access_c)));
        eapply appends_bind_raise, appends_format_0b_raise, Hbin
      | done.. ].
Qed.

(** ** The lines of a field *)

Lemma access_to_rdl_w1c s :
  any_case "w1c" s → access_to_rdl s = ("w", Some "woclr").
Proof.
  intros Hs. apply any_case_lower in Hs; [|done].
  unfold access_to_rdl. by rewrite access_map_lookup, Hs.
Qed.

Lemma access_to_rdl_not_w1c s :
  ¬ any_case "w1c" s →
  (access_to_rdl s).2 = None
  ∧ ((access_to_rdl s).1 = "rw" ∨ (access_to_rdl s).1 = "r"
     ∨ (access_to_rdl s).1 = "w").
Proof.
  intros Hs. rewrite any_case_lower in Hs by done.
  unfold access_to_rdl. rewrite access_map_lookup.
  repeat case_decide; simpl; auto. congruence.
Qed.

(** X2. For a field row that is processed, the line [hw = r;] is always
    the fifth one; the line [onwrite = woclr;] is written, as the sixth
    of seven lines and after [sw = w;], exactly when the Access cell
    without its surrounding whitespace is "w1c" in some letter case;
    otherwise six lines are written and the software access is one of
    rw, r and w. *)
Theorem onwrite_line_only_for_w1c
    field name_c lsb_c width_c access_c reset_c desc_c lsb width reset :
  assoc field "Field Name" = Some name_c →
  assoc field "LSB" = Some lsb_c →
  assoc field "Width" = Some width_c →
  assoc field "Access" = Some access_c →
  assoc field "Reset Value" = Some reset_c →
  assoc field "Description" = Some desc_c →
  int_value lsb_c = Some lsb →
  int_value width_c = Some width →
  int_or reset_c 0 = Some reset →
  0 ≤ width →
  let access := PyStr.strip (str access_c) in
  ∃ out ws,
    appends (process_field field) out ws (inr ())
    ∧ ws !! 4%nat = Some ("            hw = r;" +:+ PyStr.nl)
    ∧ (any_case "w1c" access →
         length ws = 7%nat
         ∧ ws !! 3%nat = Some ("            sw = w;" +:+ PyStr.nl)
         ∧ ws !! 5%nat = Some ("            onwrite = woclr;" +:+ PyStr.nl))
    ∧ (¬ any_case "w1c" access →
         length ws = 6%nat
         ∧ ∃ sw, ws !! 3%nat
                 = Some ("            sw = " +:+ sw +:+ ";" +:+ PyStr.nl)
                 ∧ (sw = "rw" ∨ sw = "r" ∨ sw = "w")).
Proof.
  intros Hname Hlsb Hwidth Hacc Hreset Hdesc Hl Hw Hr Hw0 access.
  destruct (format_0b_some reset width Hw0) as [reset_bin Hbin].
  pose proof (process_field_ok _ _ _ _ _ _ _ _ _ _ _
                Hname Hlsb Hwidth Hacc Hreset Hdesc Hl Hw Hr Hbin) as Hrun.
  cbv zeta in Hrun. fold access in Hrun.
  eexists _, _. split; [exact Hrun|]. split; [done|]. split.
  - intros Hany. rewrite (access_to_rdl_w1c _ Hany). by simpl.
  - intros Hany. destruct (access_to_rdl_not_w1c _ Hany) as [Hnone Hsw].
    rewrite Hnone. simpl. split; [done|]. by eexists.
Qed.

Lemma onwrite_line_only_for_w1c_witness :
  ∃ out ws,
    appends (process_field en_field) out ws (inr ())
    ∧ ws !! 4%nat = Some ("            hw = r;" +:+ PyStr.nl)
    ∧ (any_case "w1c" "w1c" →
         length ws = 7%nat
         ∧ ws !! 3%nat = Some ("            sw = w;" +:+ PyStr.nl)
         ∧ ws !! 5%nat = Some ("            onwrite = woclr;" +:+ PyStr.nl))
    ∧ (¬ any_case "w1c" "w1c" →
         length ws = 6%nat
         ∧ ∃ sw, ws !! 3%nat
                 = Some ("            sw = " +:+ sw +:+ ";" +:+ PyStr.nl)
                 ∧ (sw = "rw" ∨ sw = "r" ∨ sw = "w")).
Proof.
  apply (onwrite_line_only_for_w1c en_field
           (Str "EN") (Int 4) (Int 3) (Str "w1c") (Int 5) NaN 4 3 5);
    first [reflexivity | lia].
Defined.

(** ** What a block and a register write when nothing raises *)

(** A loop followed by one write: when it ends without raising, the
    write is the last thing it did. *)
Lemma loop_then_write {A} (body : A → Py ()) l closing :
  (∀ x, framed (body x)) →
  result_of (for_each l body;; write closing) = inr () →
  Forall (λ x, result_of (body x) = inr ()) l.
Proof.
  intros Hbody. induction l as [|x l IH]; intros Hres; [done|].
  destruct (Hbody x) as (o & s & r & Hx).
  destruct (appends_observed _ _ _ _ Hx) as (_ & _ & Hr).
  simpl in Hres.
  assert (Hfr : framed (for_each l body;; write closing)).
  { apply framed_bind; [by apply framed_for_each|].
    intros _. eapply appends_framed, appends_write. }
  destruct r as [e|[]].
  - unfold result_of, mbind, Py_bind in Hres. by rewrite Hx in Hres.
  - constructor; [by rewrite Hr|]. apply IH.
    unfold result_of, mbind, Py_bind in Hres |- *.
    rewrite Hx in Hres.
    destruct Hfr as (o' & s' & r' & Hl).
    unfold mbind, Py_bind in Hl.
    rewrite Hl in Hres. rewrite Hl. exact Hres.
Qed.

Lemma appends_loop_then_write {A} (body : A → Py ()) l closing :
  (∀ x, framed (body x)) →
  Forall (λ x, result_of (body x) = inr ()) l →
  appends (for_each l body;; write closing)
    (concat ((λ x, prints_of (body x)) <$> l))
    (concat ((λ x, writes_of (body x)) <$> l) ++ [closing])
    (inr ()).
Proof.
  intros Hbody Hok.
  eapply appends_eq;
    [ eapply appends_bind;
      [by apply for_each_all_ok | apply appends_write]
    | by rewrite ?app_nil_r.. ].
Qed.

Lemma groups_lookup_filter g key :
  key ≠ NaN →
  filter (λ row, assoc row (gb_key g) = Some key) (iterrows (gb_frame g)) ≠ [] →
  groups g !! key
  = Some (filter (λ row, assoc row (gb_key g) = Some key)
                 (iterrows (gb_frame g))).
Proof.
  intros Hkey Hne. rewrite groups_lookup by done.
  by destruct (filter _ _).
Qed.

(** X3. A block whose header cells are there, whose identifier selects
    register rows and whose register rows are all processed without
    error writes its three header lines, then the constructs of the
    register rows whose "Block Name" cell is the text of the identifier,
    in the order of the Registers sheet, then its closing line. *)
Theorem registers_written_in_sheet_order
    (df_registers : DataFrame) (fields_by_register : GroupBy)
    block name_c addr_c desc_c :
  let registers_by_block :=
    {| gb_frame := df_registers; gb_key := "Block Name" |} in
  let block_name := sanitize_name name_c in
  let selected :=
    filter (λ row, assoc row "Block Name" = Some (Str block_name))
           (iterrows df_registers) in
  assoc block "Block Name" = Some name_c →
  assoc block "Base Address" = Some addr_c →
  assoc block "Description" = Some desc_c →
  selected ≠ [] →
  Forall (λ register,
            result_of (process_register fields_by_register register) = inr ())
         selected →
  ∃ out,
    appends (process_block registers_by_block fields_by_register block) out
      (["addrmap " +:+ block_name +:+ " {" +:+ PyStr.nl;
        "    name = " +:+ PyStr.dq +:+ block_name +:+ PyStr.dq +:+ ";"
          +:+ PyStr.nl;
        "    desc = " +:+ PyStr.dq
          +:+ desc_text desc_c (block_name +:+ " Block")
          +:+ PyStr.dq +:+ ";" +:+ PyStr.nl +:+ PyStr.nl]
       ++ concat ((λ register,
                     writes_of (process_register fields_by_register register))
                  <$> selected)
       ++ ["};" +:+ PyStr.nl +:+ PyStr.nl])
      (inr ()).
Proof.
  intros rbb block_name selected Hname Haddr Hdesc Hsel Hok.
  assert (Hgroup : groups rbb !! Str block_name = Some selected)
    by (by apply (groups_lookup_filter rbb (Str block_name))).
  pose proof (process_block_registers rbb fields_by_register block
                _ _ _ _ Hname Haddr Hdesc Hgroup) as Hrun.
  cbv zeta in Hrun.
  pose proof (appends_loop_then_write (process_register fields_by_register)
                selected ("};" +:+ PyStr.nl +:+ PyStr.nl)
                (framed_process_register fields_by_register) Hok) as Hloop.
  destruct (appends_observed _ _ _ _ Hloop) as (_ & Hws & Hres).
  rewrite Hws, Hres in Hrun. eexists. exact Hrun.
Qed.

Lemma registers_written_in_sheet_order_witness :
  let registers_by_block :=
    {| gb_frame := uart_registers; gb_key := "Block Name" |} in
  let fields_by_register :=
    {| gb_frame := uart_fields; gb_key := "Register Name" |} in
  ∃ out ws,
    appends (process_block registers_by_block fields_by_register uart_block)
      out ws (inr ())
    ∧ ws !! 0%nat = Some ("addrmap UART {" +:+ PyStr.nl)
    ∧ ws !! 3%nat = Some ("    // Registro CTRL" +:+ PyStr.nl)
    ∧ ws !! 21%nat = Some ("    } CTRL @ 0x00;" +:+ PyStr.nl +:+ PyStr.nl)
    ∧ ws !! 22%nat = Some ("};" +:+ PyStr.nl +:+ PyStr.nl)
    ∧ length ws = 23%nat.
Proof.
  intros registers_by_block fields_by_register.
  destruct (registers_written_in_sheet_order uart_registers
              fields_by_register uart_block (Str "UART") (Str "0x1000") NaN)
    as [out Hout];
    [ reflexivity | reflexivity | reflexivity
    | apply (bool_decide_unpack _); vm_compute; exact I
    | apply (bool_decide_unpack _); vm_compute; exact I |].
  eexists out, _. split; [exact Hout|].
  vm_compute. repeat split; reflexivity.
Defined.

(** [sort_values] prints and writes nothing. *)
Lemma sort_values_pure rows label :
  appends (sort_values rows label) [] [] (result_of (sort_values rows label)).
Proof.
  assert (∃ r, appends (sort_values rows label) [] [] r) as [r Hr].
  { unfold sort_values.
    pose proof (map_py_getitem rows label) as Hk.
    destruct (mapM _ rows) as [keys|].
    - destruct (int_keyed (zip keys rows)) eqn:Hi;
        destruct (str_keyed (zip keys rows)) eqn:Hs;
        eexists;
        (eapply appends_eq;
         [ eapply appends_bind; [exact Hk|]; cbv beta; rewrite Hi, Hs;
           first [apply appends_ret | apply appends_raise]
         | done.. ]).
    - eexists. eapply appends_bind_raise, Hk. }
  by destruct (appends_observed _ _ _ _ Hr) as (_ & _ & ->).
Qed.

(** X4. Whatever its LSB cells hold, a register whose header cells are
    there, whose group can be sorted and whose field rows are all
    processed without error writes its five header lines, then the
    constructs of the field rows whose "Register Name" cell is the text
    of its identifier, each of them once and no other, then its closing
    line. *)
Theorem fields_written_once_each
    (df_fields : DataFrame) register name_c offset_c desc_c width_c
    reg_width fields :
  let fields_by_register :=
    {| gb_frame := df_fields; gb_key := "Register Name" |} in
  let reg_name := sanitize_name name_c in
  let selected :=
    filter (λ row, assoc row "Register Name" = Some (Str reg_name))
           (iterrows df_fields) in
  assoc register "Register Name" = Some name_c →
  assoc register "Offset" = Some offset_c →
  assoc register "Description" = Some desc_c →
  assoc register "Width (bits)" = Some width_c →
  int_or width_c 32 = Some reg_width →
  selected ≠ [] →
  result_of (sort_values selected "LSB") = inr fields →
  Forall (λ field, result_of (process_field field) = inr ()) selected →
  fields ≡ₚ selected
  ∧ ∃ out,
      appends (process_register fields_by_register register) out
        (reg_header_lines reg_name
           (desc_text desc_c (reg_name +:+ " Register")) reg_width
         ++ concat ((λ field, writes_of (process_field field)) <$> fields)
         ++ ["    } " +:+ reg_name +:+ " @ " +:+ PyStr.strip (str offset_c)
             +:+ ";" +:+ PyStr.nl +:+ PyStr.nl])
        (inr ()).
Proof.
  intros fbr reg_name selected Hname Hoff Hdesc Hwidth Hw Hsel Hsort Hok.
  pose proof (sort_values_Permutation _ _ _ Hsort) as Hperm.
  split; [done|].
  assert (Hgroup : groups fbr !! Str reg_name = Some selected)
    by (by apply (groups_lookup_filter fbr (Str reg_name))).
  pose proof (process_register_fields fbr register
                _ _ _ _ _ _ Hname Hoff Hdesc Hwidth Hw Hgroup) as Hrun.
  cbv zeta in Hrun.
  pose proof (sort_values_pure selected "LSB") as Hs.
  rewrite Hsort in Hs.
  rewrite <- Hperm in Hok.
  set (closing := "    } " +:+ sanitize_name name_c +:+ " @ "
                  +:+ PyStr.strip (str offset_c) +:+ ";" +:+ PyStr.nl
                  +:+ PyStr.nl) in *.
  assert (Hloop :
    appends (sorted ← sort_values selected "LSB";
             for_each sorted process_field;; write closing)
      ([] ++ concat ((λ field, prints_of (process_field field)) <$> fields))
      ([] ++ concat ((λ field, writes_of (process_field field)) <$> fields)
       ++ [closing])
      (inr ())).
  { eapply appends_bind; [exact Hs|]. cbv beta.
    apply appends_loop_then_write; [apply framed_process_field | done]. }
  destruct (appends_observed _ _ _ _ Hloop) as (_ & Hws & Hres).
  rewrite Hws, Hres in Hrun. eexists. exact Hrun.
Qed.

Lemma fields_written_once_each_witness :
  let fields_by_register :=
    {| gb_frame := uart_fields; gb_key := "Register Name" |} in
  ∃ fields out ws,
    fields ≡ₚ iterrows uart_fields
    ∧ appends (process_register fields_by_register ctrl_register) out ws
        (inr ())
    ∧ length ws = 19%nat
    ∧ ws !! 10%nat
      = Some ("        } MODE[1:0] = 2'b00;" +:+ PyStr.nl +:+ PyStr.nl)
    ∧ ws !! 17%nat
      = Some ("        } EN[6:4] = 3'b101;" +:+ PyStr.nl +:+ PyStr.nl).
Proof.
  intros fields_by_register.
  destruct (fields_written_once_each uart_fields ctrl_register
              (Str "CTRL") (Str "0x00") (Str " control ") NaN 32
              (reverse (iterrows uart_fields)))
    as (Hperm & out & Hout);
    [ reflexivity | reflexivity | reflexivity | reflexivity | reflexivity
    | apply (bool_decide_unpack _); vm_compute; exact I
    | vm_compute; reflexivity
    | apply (bool_decide_unpack _); vm_compute; exact I |].
  eexists _, out, _. split; [exact Hperm|]. split; [exact Hout|].
  vm_compute. repeat split; reflexivity.
Defined.

(** ** Whole runs *)

Lemma world_eq (w1 w2 : world) :
  stdout w1 = stdout w2 → written w1 = written w2 → w1 = w2.
Proof. destruct w1, w2; simpl; by intros -> ->. Qed.

Section runs.

Context (env : Env) (excel_file output_file : string).
Context (df_blocks df_registers df_fields : DataFrame).
Context (Hblocks : read_excel env excel_file "Blocks" = inr df_blocks).
Context (Hregisters : read_excel env excel_file "Registers" = inr df_registers).
Context (Hfields : read_excel env excel_file "Fields" = inr df_fields).
Context (Hblock_name : "Block Name" ∈ columns (strip_columns df_registers)).
Context (Hreg_name : "Register Name" ∈ columns (strip_columns df_fields)).

(** The [try] block once the sheets are loaded and the output file is
    open: the loop over the blocks runs on an empty file, and the closing
    messages follow when it ends without raising. *)
Lemma generate_body_run w out ws r :
  open_w env output_file = None →
  appends (for_each (iterrows (strip_columns df_blocks))
             (process_block
                {| gb_frame := strip_columns df_registers;
                   gb_key := "Block Name" |}
                {| gb_frame := strip_columns df_fields;
                   gb_key := "Register Name" |}))
    out ws r →
  generate_body env excel_file output_file w =
    ({| stdout := stdout w
                  ++ loading_lines excel_file df_blocks df_registers df_fields
                  ++ out
                  ++ (if r is inr _ then success_lines output_file else []);
        written := Some ws |},
     r).
Proof.
  intros Hopen Hloop.
  unfold generate_body, pd_read_excel, groupby, open_write.
  rewrite Hblocks, Hregisters, Hfields.
  unfold mbind at 1 2 3 4 5 6 7 8 9 10.
  unfold Py_bind at 1 2 3 4 5 6 7 8 9 10.
  unfold mret, Py_ret, print. cbv beta iota.
  rewrite !decide_True by done. cbv beta iota. rewrite Hopen. cbv beta iota.
  unfold mbind at 1. unfold Py_bind at 1. rewrite Hloop.
  destruct r as [e|[]].
  - f_equal. apply world_eq; simpl; [|done].
    rewrite <- !app_assoc. by rewrite app_nil_r.
  - unfold mbind, Py_bind. simpl. f_equal. apply world_eq; simpl; [|done].
    by rewrite <- !app_assoc.
Qed.

(** The same for the whole function: an exception of the loop is
    answered with the failure lines. *)
Lemma generate_run w out ws r :
  open_w env output_file = None →
  appends (for_each (iterrows (strip_columns df_blocks))
             (process_block
                {| gb_frame := strip_columns df_registers;
                   gb_key := "Block Name" |}
                {| gb_frame := strip_columns df_fields;
                   gb_key := "Register Name" |}))
    out ws r →
  generate_rdl_from_excel env excel_file output_file w =
    ({| stdout := stdout w
                  ++ loading_lines excel_file df_blocks df_registers df_fields
                  ++ out
                  ++ match r with
                     | inr _ => success_lines output_file
                     | inl e => failure_lines excel_file e
                     end;
        written := Some ws |},
     inr ()).
Proof.
  intros Hopen Hloop.
  unfold generate_rdl_from_excel, try_except.
  rewrite (generate_body_run w out ws r Hopen Hloop).
  destruct r as [e|[]]; [|done].
  destruct (appends_handler excel_file e) as (msgs & Hh & _).
  destruct (appends_observed _ _ _ _ Hh) as (Hp & _ & _).
  rewrite Hh. f_equal. apply world_eq; simpl.
  - unfold failure_lines. rewrite Hp. by rewrite <- !app_assoc, app_nil_r.
  - by rewrite app_nil_r.
Qed.

End runs.

(** A loop stops at the first row whose body raises: the rows after it
    are not visited. *)
Lemma for_each_stops {A} (body : A → Py ()) before bad after e :
  (∀ x, framed (body x)) →
  Forall (λ x, result_of (body x) = inr ()) before →
  result_of (body bad) = inl e →
  appends (for_each (before ++ bad :: after) body)
    (concat ((λ x, prints_of (body x)) <$> before) ++ prints_of (body bad))
    (concat ((λ x, writes_of (body x)) <$> before) ++ writes_of (body bad))
    (inl e).
Proof.
  intros Hbody Hok Hbad.
  pose proof (framed_appends _ (Hbody bad)) as Hb. rewrite Hbad in Hb.
  induction Hok as [|x l Hx _ IH]; simpl.
  - by apply appends_bind_raise.
  - pose proof (framed_appends _ (Hbody x)) as Hrun. rewrite Hx in Hrun.
    eapply appends_eq;
      [ eapply appends_bind; [exact Hrun | exact IH]
      | by rewrite ?app_assoc.. ].
Qed.

(** X5. When the three sheets load, the two grouping columns exist, the
    output file opens and every block row is processed without error,
    the output file holds the constructs of the block rows in the order
    of the Blocks sheet and nothing else, the five closing messages are
    printed, and the function returns; a Blocks sheet without rows gives
    an empty output file. *)
Theorem blocks_written_in_sheet_order
    (env : Env) (excel_file output_file : string)
    (df_blocks df_registers df_fields : DataFrame) (w : world) :
  let registers_by_block :=
    {| gb_frame := strip_columns df_registers; gb_key := "Block Name" |} in
  let fields_by_register :=
    {| gb_frame := strip_columns df_fields; gb_key := "Register Name" |} in
  let body := process_block registers_by_block fields_by_register in
  let blocks := iterrows (strip_columns df_blocks) in
  read_excel env excel_file "Blocks" = inr df_blocks →
  read_excel env excel_file "Registers" = inr df_registers →
  read_excel env excel_file "Fields" = inr df_fields →
  "Block Name" ∈ columns (strip_columns df_registers) →
  "Register Name" ∈ columns (strip_columns df_fields) →
  open_w env output_file = None →
  Forall (λ block, result_of (body block) = inr ()) blocks →
  generate_rdl_from_excel env excel_file output_file w =
    ({| stdout := stdout w
                  ++ loading_lines excel_file df_blocks df_registers df_fields
                  ++ concat ((λ block, prints_of (body block)) <$> blocks)
                  ++ success_lines output_file;
        written := Some (concat ((λ block, writes_of (body block))
                                 <$> blocks)) |},
     inr ()).
Proof.
  intros rbb fbr body blocks Hb Hr Hf Hbn Hrn Hopen Hok.
  apply (generate_run env excel_file output_file _ _ _ Hb Hr Hf Hbn Hrn
           w _ _ (inr ()) Hopen).
  apply for_each_all_ok; [|done].
  intros block. apply framed_process_block.
Qed.

(** X6. When a block row raises after the output file was opened, the
    rows after it are not processed and nothing is cleaned up: the
    output file keeps the constructs of the blocks before it and
    whatever the failing block had written, the failure lines are
    printed instead of the closing messages, and the function returns
    normally. *)
Theorem failing_block_leaves_partial_file
    (env : Env) (excel_file output_file : string)
    (df_blocks df_registers df_fields : DataFrame) (w : world)
    (before after : list Series) (bad : Series) (e : exn) :
  let registers_by_block :=
    {| gb_frame := strip_columns df_registers; gb_key := "Block Name" |} in
  let fields_by_register :=
    {| gb_frame := strip_columns df_fields; gb_key := "Register Name" |} in
  let body := process_block registers_by_block fields_by_register in
  read_excel env excel_file "Blocks" = inr df_blocks →
  read_excel env excel_file "Registers" = inr df_registers →
  read_excel env excel_file "Fields" = inr df_fields →
  "Block Name" ∈ columns (strip_columns df_registers) →
  "Register Name" ∈ columns (strip_columns df_fields) →
  open_w env output_file = None →
  iterrows (strip_columns df_blocks) = before ++ bad :: after →
  Forall (λ block, result_of (body block) = inr ()) before →
  result_of (body bad) = inl e →
  generate_rdl_from_excel env excel_file output_file w =
    ({| stdout := stdout w
                  ++ loading_lines excel_file df_blocks df_registers df_fields
                  ++ (concat ((λ block, prints_of (body block)) <$> before)
                      ++ prints_of (body bad))
                  ++ failure_lines excel_file e;
        written := Some (concat ((λ block, writes_of (body block))
                                 <$> before)
                         ++ writes_of (body bad)) |},
     inr ()).
Proof.
  intros rbb fbr body Hb Hr Hf Hbn Hrn Hopen Hrows Hok Hbad.
  apply (generate_run env excel_file output_file _ _ _ Hb Hr Hf Hbn Hrn
           w _ _ (inl e) Hopen).
  rewrite Hrows. apply for_each_stops; [|done..].
  intros block. apply framed_process_block.
Qed.

(** X7. The output file is opened only after the three sheets are
    loaded and both groupings are built: when a sheet cannot be read,
    when the Registers sheet has no "Block Name" column or the Fields
    sheet no "Register Name" column (labels trimmed), or when the file
    cannot be opened, the function returns normally and the output file
    is as it was. *)
Theorem unusable_input_leaves_output_untouched
    (env : Env) (excel_file output_file : string) (w : world) :
  (∃ e, read_excel env excel_file "Blocks" = inl e)
  ∨ (∃ e, read_excel env excel_file "Registers" = inl e)
  ∨ (∃ e, read_excel env excel_file "Fields" = inl e)
  ∨ (∃ df, read_excel env excel_file "Registers" = inr df
           ∧ "Block Name" ∉ columns (strip_columns df))
  ∨ (∃ df, read_excel env excel_file "Fields" = inr df
           ∧ "Register Name" ∉ columns (strip_columns df))
  ∨ (∃ e, open_w env output_file = Some e) →
  written (generate_rdl_from_excel env excel_file output_file w).1 = written w
  ∧ (generate_rdl_from_excel env excel_file output_file w).2 = inr ().
Proof.
  intros Hbad. split; [|apply generate_returns].
  unfold generate_rdl_from_excel, try_except, generate_body,
    pd_read_excel, groupby, open_write.
  destruct (read_excel env excel_file "Blocks") as [e1|df_blocks] eqn:Hb;
    [unfold mbind, Py_bind; simpl; by destruct e1|].
  destruct (read_excel env excel_file "Registers") as [e2|df_registers] eqn:Hr;
    [unfold mbind, Py_bind; simpl; by destruct e2|].
  destruct (read_excel env excel_file "Fields") as [e3|df_fields] eqn:Hf;
    [unfold mbind, Py_bind; simpl; by destruct e3|].
  destruct (decide ("Block Name" ∈ columns (strip_columns df_registers)))
    as [Hbn|Hbn];
    [|unfold mbind, Py_bind; simpl; by rewrite decide_False].
  destruct (decide ("Register Name" ∈ columns (strip_columns df_fields)))
    as [Hrn|Hrn];
    [|unfold mbind, Py_bind; simpl;
      rewrite decide_True, decide_False by done; done].
  destruct (open_w env output_file) as [e4|] eqn:Hopen;
    [unfold mbind, Py_bind; simpl;
     rewrite !decide_True by done; simpl; by destruct e4|].
  exfalso.
  destruct Hbad as [[e H]|[[e H]|[[e H]|[(df & H & Hn)|[(df & H & Hn)|[e H]]]]]];
    simplify_eq; done.
Qed.

Lemma unusable_input_leaves_output_untouched_witness :
  written (generate_rdl_from_excel no_workbook "missing.xlsx" "out.rdl"
             (fresh [])).1 = None
  ∧ written (generate_rdl_from_excel
               (workbook uart_blocks
                  {| columns := ["Register Name"; "Offset"]; values := [] |}
                  uart_fields)
               "spec.xlsx" "out.rdl" (fresh [])).1 = None.
Proof.
  split.
  - apply (unusable_input_leaves_output_untouched no_workbook
             "missing.xlsx" "out.rdl" (fresh [])).
    left. eexists. reflexivity.
  - apply (unusable_input_leaves_output_untouched
             (workbook uart_blocks
                {| columns := ["Register Name"; "Offset"]; values := [] |}
                uart_fields)
             "spec.xlsx" "out.rdl" (fresh [])).
    right. right. right. left. eexists. split; [reflexivity|].
    apply (bool_decide_unpack _). vm_compute. exact I.
Defined.

(** X8. The [except FileNotFoundError] clause also answers the [open]
    of the output file: when the sheets load and the output path cannot
    be opened because it does not exist, the message printed names the
    workbook, not the output path, and nothing is written. *)
Theorem missing_output_path_blamed_on_workbook
    (env : Env) (excel_file output_file msg : string)
    (df_blocks df_registers df_fields : DataFrame) (w : world) :
  read_excel env excel_file "Blocks" = inr df_blocks →
  read_excel env excel_file "Registers" = inr df_registers →
  read_excel env excel_file "Fields" = inr df_fields →
  "Block Name" ∈ columns (strip_columns df_registers) →
  "Register Name" ∈ columns (strip_columns df_fields) →
  open_w env output_file = Some (FileNotFoundError msg) →
  generate_rdl_from_excel env excel_file output_file w =
    (emit w
       (loading_lines excel_file df_blocks df_registers df_fields
        ++ ["❌ Error: No se pudo encontrar el archivo " +:+ excel_file;
            "   Verifica que el archivo existe y la ruta es correcta"])
       [],
     inr ()).
Proof.
  intros Hb Hr Hf Hbn Hrn Hopen.
  unfold generate_rdl_from_excel, try_except, generate_body,
    pd_read_excel, groupby, open_write.
  rewrite Hb, Hr, Hf.
  unfold mbind at 1 2 3 4 5 6 7 8 9 10.
  unfold Py_bind at 1 2 3 4 5 6 7 8 9 10.
  unfold mret, Py_ret, print. cbv beta iota.
  rewrite !decide_True by done. cbv beta iota. rewrite Hopen. cbv beta iota.
  unfold generate_handler, mbind, Py_bind, print. simpl.
  f_equal. apply world_eq; simpl.
  - by rewrite <- !app_assoc.
  - destruct (written w); simpl; by rewrite ?app_nil_r.
Qed.

Lemma missing_output_path_blamed_on_workbook_witness :
  let env :=
    {| read_excel := read_excel (workbook uart_blocks uart_registers uart_fields);
       open_w := λ path,
         Some (FileNotFoundError ("[Errno 2] No such file or directory: "
                                  +:+ PyStr.sq +:+ path +:+ PyStr.sq)) |} in
  generate_rdl_from_excel env "spec.xlsx" "nowhere/out.rdl" (fresh []) =
    (fresh ["Leyendo archivo Excel: spec.xlsx";
            "✓ Bloques encontrados: 1";
            "✓ Registros encontrados: 1";
            "✓ Fields encontrados: 2";
            "❌ Error: No se pudo encontrar el archivo spec.xlsx";
            "   Verifica que el archivo existe y la ruta es correcta"],
     inr ()).
Proof.
  intros env.
  apply (missing_output_path_blamed_on_workbook env "spec.xlsx"
           "nowhere/out.rdl"
           ("[Errno 2] No such file or directory: "
            +:+ PyStr.sq +:+ "nowhere/out.rdl" +:+ PyStr.sq)
           uart_blocks uart_registers uart_fields (fresh []));
    first [ reflexivity | apply (bool_decide_unpack _); vm_compute; exact I ].
Defined.

Lemma blocks_written_in_sheet_order_witness :
  (∃ out ws,
     generate_rdl_from_excel (workbook uart_blocks uart_registers uart_fields)
       "spec.xlsx" "out.rdl" (fresh [])
     = ({| stdout := out; written := Some ws |}, inr ())
     ∧ length ws = 23%nat
     ∧ ws !! 0%nat = Some ("addrmap UART {" +:+ PyStr.nl)
     ∧ ws !! 22%nat = Some ("};" +:+ PyStr.nl +:+ PyStr.nl))
  ∧ written (generate_rdl_from_excel
               (workbook no_blocks uart_registers uart_fields)
               "spec.xlsx" "out.rdl" (fresh [])).1 = Some [].
Proof.
  split.
  - eexists _, _. split.
    + apply (blocks_written_in_sheet_order
               (workbook uart_blocks uart_registers uart_fields)
               "spec.xlsx" "out.rdl" uart_blocks uart_registers uart_fields
               (fresh []));
        first [ reflexivity
              | apply (bool_decide_unpack _); vm_compute; exact I ].
    + vm_compute. repeat split; reflexivity.
  - rewrite (blocks_written_in_sheet_order
               (workbook no_blocks uart_registers uart_fields)
               "spec.xlsx" "out.rdl" no_blocks uart_registers uart_fields
               (fresh []));
      first [ reflexivity
            | apply (bool_decide_unpack _); vm_compute; exact I
            | vm_compute; reflexivity ].
Defined.

Lemma failing_block_leaves_partial_file_witness :
  ∃ out,
    generate_rdl_from_excel
      (workbook three_blocks bad_width_registers no_fields)
      "spec.xlsx" "out.rdl" (fresh [])
    = ({| stdout := out;
          written :=
            Some ["addrmap GPIO {" +:+ PyStr.nl;
                  "    name = " +:+ PyStr.dq +:+ "GPIO" +:+ PyStr.dq +:+ ";"
                    +:+ PyStr.nl;
                  "    desc = " +:+ PyStr.dq +:+ "GPIO Block" +:+ PyStr.dq
                    +:+ ";" +:+ PyStr.nl +:+ PyStr.nl;
                  "    // No se encontraron registros para este bloque"
                    +:+ PyStr.nl +:+ PyStr.nl;
                  "};" +:+ PyStr.nl +:+ PyStr.nl;
                  "addrmap UART {" +:+ PyStr.nl;
                  "    name = " +:+ PyStr.dq +:+ "UART" +:+ PyStr.dq +:+ ";"
                    +:+ PyStr.nl;
                  "    desc = " +:+ PyStr.dq +:+ "UART Block" +:+ PyStr.dq
                    +:+ ";" +:+ PyStr.nl +:+ PyStr.nl] |},
       inr ())
    ∧ last out
      = Some ("❌ Error al procesar el archivo: "
              +:+ "invalid literal for int() with base 10: 'abc'").
Proof.
  eexists. split.
  - apply (failing_block_leaves_partial_file
             (workbook three_blocks bad_width_registers no_fields)
             "spec.xlsx" "out.rdl" three_blocks bad_width_registers no_fields
             (fresh []) [gpio_block] [spi_block] uart_block
             (ValueError ("invalid literal for int() with base 10: "
                          +:+ PyStr.sq +:+ "abc" +:+ PyStr.sq)));
      first [ reflexivity
            | apply (bool_decide_unpack _); vm_compute; exact I
            | vm_compute; reflexivity ].
  - vm_compute. reflexivity.
Defined.

(** ** Trimming *)

Lemma lstrip_id s : head_space s = false → PyStr.lstrip s = s.
Proof. destruct s as [|c s]; simpl; [done|]. by intros ->. Qed.

Lemma rstrip_id s : last_space s = false → PyStr.rstrip s = s.
Proof.
  induction s as [|c s IH]; [done|]. simpl.
  destruct s as [|d s].
  - simpl. by intros ->.
  - intros Hl. by rewrite (IH Hl).
Qed.

Lemma strip_id s :
  head_space s = false → last_space s = false → PyStr.strip s = s.
Proof.
  intros Hh Hl. unfold PyStr.strip. rewrite (lstrip_id s Hh).
  by apply rstrip_id.
Qed.

Lemma strip_strip s : PyStr.strip (PyStr.strip s) = PyStr.strip s.
Proof.
  destruct (strip_spec s) as (pre & post & _ & _ & _ & Hh & Hl).
  by apply strip_id.
Qed.

Lemma strip_columns_strip_columns df :
  strip_columns (strip_columns df) = strip_columns df.
Proof.
  unfold strip_columns. simpl. f_equal.
  rewrite map_map. apply map_ext. intros label. apply strip_strip.
Qed.

(** X9. Only the trimmed column labels of the sheets matter: a workbook
    whose labels carry surrounding whitespace is processed exactly as
    the workbook with the labels trimmed, message for message and write
    for write. *)
Theorem padded_labels_are_accepted
    (env1 env2 : Env) (excel_file output_file : string) (w : world) :
  (∀ sheet, read_excel env2 excel_file sheet
            = trimmed (read_excel env1 excel_file sheet)) →
  open_w env1 output_file = open_w env2 output_file →
  generate_rdl_from_excel env1 excel_file output_file w
  = generate_rdl_from_excel env2 excel_file output_file w.
Proof.
  intros Hread Hopen.
  unfold generate_rdl_from_excel, try_except, generate_body,
    pd_read_excel, open_write.
  rewrite !Hread, Hopen.
  destruct (read_excel env1 excel_file "Blocks") as [e1|df_blocks];
    [done|].
  destruct (read_excel env1 excel_file "Registers") as [e2|df_registers];
    [done|].
  destruct (read_excel env1 excel_file "Fields") as [e3|df_fields];
    [done|].
  unfold trimmed, mbind, Py_bind, mret, Py_ret. cbv beta iota zeta.
  by rewrite !strip_columns_strip_columns.
Qed.

Lemma padded_labels_are_accepted_witness :
  let padded :=
    {| columns := [" Block Name"; "Register Name "; " Offset ";
                   "Description"; "Width (bits) "];
       values := values uart_registers |} in
  generate_rdl_from_excel (workbook uart_blocks padded uart_fields)
    "spec.xlsx" "out.rdl" (fresh [])
  = generate_rdl_from_excel
      (workbook (strip_columns uart_blocks) (strip_columns padded)
         (strip_columns uart_fields))
      "spec.xlsx" "out.rdl" (fresh []).
Proof.
  intros padded.
  apply (padded_labels_are_accepted
           (workbook uart_blocks padded uart_fields)
           (workbook (strip_columns uart_blocks) (strip_columns padded)
              (strip_columns uart_fields))
           "spec.xlsx" "out.rdl" (fresh [])); [|reflexivity].
  intros sheet. unfold workbook. simpl. by repeat case_decide.
Defined.

(** ** More on the sanitizer *)

Lemma sanitize_name_underscore name :
  sanitize_name name = PyStr.map_chars underscore (PyStr.strip (str name)).
Proof.
  unfold sanitize_name, PyStr.replace. rewrite map_chars_map_chars.
  apply map_chars_ext. intros c. unfold compose, underscore.
  destruct (decide (c = " "%char)) as [->|Hspace]; [done|].
  destruct (decide (c = "-"%char)) as [->|Hhyphen]; [done|].
  by rewrite bool_decide_eq_false_2 by tauto.
Qed.

Lemma underscore_isspace c :
  PyStr.isspace c = false → PyStr.isspace (underscore c) = false.
Proof.
  intros Hc. unfold underscore. case_bool_decide; [reflexivity | exact Hc].
Qed.

Lemma underscore_underscore c : underscore (underscore c) = underscore c.
Proof.
  unfold underscore.
  destruct (bool_decide (c = " "%char ∨ c = "-"%char)) eqn:Hc;
    [reflexivity | by rewrite Hc].
Qed.

Lemma head_space_underscore s :
  head_space s = false → head_space (PyStr.map_chars underscore s) = false.
Proof. destruct s; simpl; [done|]. apply underscore_isspace. Qed.

Lemma last_space_underscore s :
  last_space s = false → last_space (PyStr.map_chars underscore s) = false.
Proof.
  induction s as [|c s IH]; [done|].
  destruct s as [|d s]; simpl in *; [apply underscore_isspace | exact IH].
Qed.

Lemma has_char_underscore a s :
  a = " "%char ∨ a = "-"%char →
  has_char a (PyStr.map_chars underscore s) = false.
Proof.
  intros Ha. induction s as [|c s IH]; [done|]. simpl. rewrite IH.
  rewrite orb_false_r. apply bool_decide_eq_false_2.
  unfold underscore. case_bool_decide as Hc.
  - by destruct Ha as [->| ->].
  - destruct Ha as [->| ->]; tauto.
Qed.

(** X10. Sanitizing is idempotent: the identifier of an identifier is
    that identifier.  Hence a block whose name cell already holds an
    identifier is given the register rows whose "Block Name" cell equals
    its own, in sheet order. *)
Theorem sanitize_name_idempotent (name : cell) (registers_by_block : GroupBy) :
  sanitize_name (Str (sanitize_name name)) = sanitize_name name
  ∧ block_registers registers_by_block
      (sanitize_name (Str (sanitize_name name)))
    = filter (λ row, assoc row (gb_key registers_by_block)
                     = Some (Str (sanitize_name name)))
             (iterrows (gb_frame registers_by_block)).
Proof.
  assert (Hidem : sanitize_name (Str (sanitize_name name)) = sanitize_name name).
  { rewrite (sanitize_name_underscore (Str _)). simpl str.
    rewrite sanitize_name_underscore.
    destruct (strip_spec (str name)) as (pre & post & _ & _ & _ & Hh & Hl).
    rewrite strip_id
      by (by apply head_space_underscore || by apply last_space_underscore).
    rewrite map_chars_map_chars. apply map_chars_ext. intros c.
    apply underscore_underscore. }
  split; [done|]. by apply block_registers_of_clean_name.
Qed.

(** X11. An identifier holds no space character and no hyphen, has no
    whitespace at either end, and is as long as the name without the
    whitespace at its ends. *)
Theorem sanitized_identifier_shape (name : cell) :
  has_char " " (sanitize_name name) = false
  ∧ has_char "-" (sanitize_name name) = false
  ∧ head_space (sanitize_name name) = false
  ∧ last_space (sanitize_name name) = false
  ∧ String.length (sanitize_name name)
    = String.length (PyStr.strip (str name)).
Proof.
  rewrite sanitize_name_underscore.
  destruct (strip_spec (str name)) as (pre & post & _ & _ & _ & Hh & Hl).
  repeat split.
  - apply has_char_underscore. by left.
  - apply has_char_underscore. by right.
  - by apply head_space_underscore.
  - by apply last_space_underscore.
  - apply length_map_chars.
Qed.

(** ** The command line *)


(** ** Columns of the Blocks sheet *)

(** X13. The base address of a block is read and never emitted: two
    block rows with the same "Block Name" and "Description" cells, each
    with some "Base Address" cell, are processed alike whatever their
    other cells hold. *)
Theorem base_address_is_never_emitted
    (registers_by_block fields_by_register : GroupBy)
    (block block' : Series) (w : world) :
  assoc block "Block Name" = assoc block' "Block Name" →
  assoc block "Description" = assoc block' "Description" →
  is_Some (assoc block "Base Address") →
  is_Some (assoc block' "Base Address") →
  process_block registers_by_block fields_by_register block w
  = process_block registers_by_block fields_by_register block' w.
Proof.
  intros Hname Hdesc [addr Haddr] [addr' Haddr'].
  unfold process_block, getitem. rewrite Hname, Hdesc, Haddr, Haddr'.
  by destruct (assoc block' "Block Name").
Qed.

Lemma base_address_is_never_emitted_witness :
  let registers_by_block :=
    {| gb_frame := uart_registers; gb_key := "Block Name" |} in
  let fields_by_register :=
    {| gb_frame := uart_fields; gb_key := "Register Name" |} in
  process_block registers_by_block fields_by_register uart_block (fresh [])
  = process_block registers_by_block fields_by_register
      [("Description", NaN); ("Base Address", Int 0);
       ("Block Name", Str "UART")]
      (fresh []).
Proof.
  intros registers_by_block fields_by_register.
  apply (base_address_is_never_emitted registers_by_block fields_by_register
           uart_block
           [("Description", NaN); ("Base Address", Int 0);
            ("Block Name", Str "UART")]
           (fresh []));
    first [reflexivity | by eexists].
Defined.





(** ** Constructs are closed when nothing raises *)

(** X15. A block that is processed without error, with or without
    registers, starts with its [addrmap] line and ends with its closing
    line; a register that is processed without error starts with its
    comment and [reg {] lines and ends with its closing line, which
    carries its identifier and offset. *)
Theorem finished_items_are_closed
    (registers_by_block fields_by_register : GroupBy) :
  (∀ block name_c addr_c desc_c,
     assoc block "Block Name" = Some name_c →
     assoc block "Base Address" = Some addr_c →
     assoc block "Description" = Some desc_c →
     result_of (process_block registers_by_block fields_by_register block)
       = inr () →
     ∃ out middle,
       appends (process_block registers_by_block fields_by_register block)
         out
         (["addrmap " +:+ sanitize_name name_c +:+ " {" +:+ PyStr.nl]
          ++ middle ++ ["};" +:+ PyStr.nl +:+ PyStr.nl])
         (inr ()))
  ∧ (∀ register name_c offset_c desc_c width_c reg_width,
       assoc register "Register Name" = Some name_c →
       assoc register "Offset" = Some offset_c →
       assoc register "Description" = Some desc_c →
       assoc register "Width (bits)" = Some width_c →
       int_or width_c 32 = Some reg_width →
       result_of (process_register fields_by_register register) = inr () →
       ∃ out middle,
         appends (process_register fields_by_register register) out
           (["    // Registro " +:+ sanitize_name name_c +:+ PyStr.nl;
             "    reg {" +:+ PyStr.nl]
            ++ middle
            ++ ["    } " +:+ sanitize_name name_c +:+ " @ "
                +:+ PyStr.strip (str offset_c) +:+ ";" +:+ PyStr.nl
                +:+ PyStr.nl])
           (inr ())).
Proof.
  split.
  - intros block name_c addr_c desc_c Hname Haddr Hdesc Hres.
    destruct (groups registers_by_block !! Str (sanitize_name name_c))
      as [regs|] eqn:Hgroup.
    + pose proof (process_block_registers registers_by_block
                    fields_by_register block _ _ _ _
                    Hname Haddr Hdesc Hgroup) as Hrun.
      cbv zeta in Hrun.
      destruct (appends_observed _ _ _ _ Hrun) as (_ & _ & Hr).
      rewrite Hres in Hr. symmetry in Hr.
      pose proof (loop_then_write _ _ _
                    (framed_process_register fields_by_register) Hr) as Hok.
      pose proof (appends_loop_then_write
                    (process_register fields_by_register) regs
                    ("};" +:+ PyStr.nl +:+ PyStr.nl)
                    (framed_process_register fields_by_register) Hok)
        as Hloop.
      destruct (appends_observed _ _ _ _ Hloop) as (_ & Hws & Hres').
      rewrite Hws, Hres' in Hrun.
      match type of Hrun with
      | appends _ ?o ([_; ?b; ?c] ++ ?x ++ [_]) _ =>
          exists o, ([b; c] ++ x)
      end.
      exact Hrun.
    + pose proof (process_block_empty registers_by_block fields_by_register
                    block _ _ _ Hname Haddr Hdesc Hgroup) as Hrun.
      cbv zeta in Hrun.
      match type of Hrun with
      | appends _ ?o [_; ?b; ?c; ?d; _] _ => exists o, [b; c; d]
      end.
      exact Hrun.
  - intros register name_c offset_c desc_c width_c reg_width
      Hname Hoff Hdesc Hwidth Hw Hres.
    destruct (groups fields_by_register !! Str (sanitize_name name_c))
      as [group|] eqn:Hgroup.
    + pose proof (process_register_fields fields_by_register register
                    _ _ _ _ _ _ Hname Hoff Hdesc Hwidth Hw Hgroup) as Hrun.
      cbv zeta in Hrun.
      destruct (appends_observed _ _ _ _ Hrun) as (_ & _ & Hr).
      rewrite Hres in Hr. symmetry in Hr.
      set (closing := "    } " +:+ sanitize_name name_c +:+ " @ "
                      +:+ PyStr.strip (str offset_c) +:+ ";" +:+ PyStr.nl
                      +:+ PyStr.nl) in *.
      pose proof (sort_values_pure group "LSB") as Hsort.
      rewrite (result_of_bind _
                 (λ sorted, for_each sorted process_field;; write closing)
                 _ Hsort) in Hr.
      destruct (result_of (sort_values group "LSB")) as [e|sorted];
        [done|].
      pose proof (loop_then_write _ _ _ framed_process_field Hr) as Hok.
      pose proof (appends_loop_then_write process_field sorted closing
                    framed_process_field Hok) as Hloop.
      pose proof (appends_bind (sort_values group "LSB")
                    (λ sorted, for_each sorted process_field;; write closing)
                    _ _ _ _ _ _ Hsort Hloop) as Hall.
      destruct (appends_observed _ _ _ _ Hall) as (_ & Hws & Hres').
      rewrite Hws, Hres' in Hrun. unfold reg_header_lines in Hrun.
      match type of Hrun with
      | appends _ ?o ([_; _; ?c; ?d; ?e] ++ [] ++ ?x ++ [_]) _ =>
          exists o, ([c; d; e] ++ x)
      end.
      exact Hrun.
    + pose proof (process_register_empty fields_by_register register
                    _ _ _ _ _ Hname Hoff Hdesc Hwidth Hw Hgroup) as Hrun.
      cbv zeta in Hrun. unfold reg_header_lines in Hrun.
      match type of Hrun with
      | appends _ ?o ([_; _; ?c; ?d; ?e] ++ [?f; _]) _ =>
          exists o, [c; d; e; f]
      end.
      exact Hrun.
Qed.

Lemma finished_items_are_closed_witness :
  (∃ out middle,
     appends (process_block {| gb_frame := uart_registers; gb_key := "Block Name" |}
                {| gb_frame := uart_fields; gb_key := "Register Name" |} uart_block)
       out
       (["addrmap UART {" +:+ PyStr.nl]
        ++ middle ++ ["};" +:+ PyStr.nl +:+ PyStr.nl])
       (inr ()))
  ∧ (∃ out middle,
       appends (process_register {| gb_frame := uart_fields; gb_key := "Register Name" |}
                  ctrl_register)
         out
         (["    // Registro CTRL" +:+ PyStr.nl; "    reg {" +:+ PyStr.nl]
          ++ middle
          ++ ["    } CTRL @ 0x00;" +:+ PyStr.nl +:+ PyStr.nl])
         (inr ())).
Proof.
  destruct (finished_items_are_closed {| gb_frame := uart_registers; gb_key := "Block Name" |}
              {| gb_frame := uart_fields; gb_key := "Register Name" |}) as [Hblock Hregister].
  split.
  - apply (Hblock uart_block (Str "UART") (Str "0x1000") NaN);
      vm_compute; reflexivity.
  - apply (Hregister ctrl_register (Str "CTRL") (Str "0x00")
             (Str " control ") NaN 32);
      vm_compute; reflexivity.
Defined.

(** ** The bit range of a field is not checked *)


